(** * monitoring_util: range thresholds and the plugin response

    A shallow embedding of [Check_Range] and [Response] of
    [monitoring_util.py], the helper module shared by the check scripts,
    together with the properties of the range reader, of the two
    classifiers and of the status bookkeeping.  It also covers the line
    iterator of [External_Command], the rebinding of the return codes in
    [Plugin_Check.parse], the check of [check_file_status.py] and the
    return codes computed in [check_zonemaster.py] and
    [check_becs_dhcp_scopes.py].

    Python numbers are kept as they are at run time: an [int] is an
    unbounded integer, a [float] is an IEEE 754 binary64 value.  Strings are
    [string]s, raised exceptions are the [Raise] branch of [result]. *)

From Stdlib Require Import ZArith List String Ascii Bool Lia Permutation.
From Stdlib Require Import Floats.SpecFloat.
Import ListNotations.

Local Open Scope Z_scope.

(** ** Python numbers *)

Module PyNum.

(** binary64 *)
Definition prec : Z := 53.
Definition emax : Z := 1024.

Inductive num : Type :=
| PInt (n : Z)
| PFloat (f : spec_float).

(** The value of a number on the extended real line; a finite value is
    the dyadic [m * 2^e]. *)
Inductive xreal : Type :=
| XNaN
| XNegInf
| XPosInf
| XDyadic (m e : Z).

Definition xreal_of_float (f : spec_float) : xreal :=
  match f with
  | S754_nan => XNaN
  | S754_infinity true => XNegInf
  | S754_infinity false => XPosInf
  | S754_zero _ => XDyadic 0 0
  | S754_finite s m e => XDyadic (if s then Z.neg m else Z.pos m) e
  end.

Definition xreal_of (x : num) : xreal :=
  match x with
  | PInt n => XDyadic n 0
  | PFloat f => xreal_of_float f
  end.

(** [m1 * 2^e1] against [m2 * 2^e2], exactly. *)
Definition dyadic_compare (m1 e1 m2 e2 : Z) : comparison :=
  let e := Z.min e1 e2 in
  (m1 * 2 ^ (e1 - e)) ?= (m2 * 2 ^ (e2 - e)).

(** Rich comparison of two numbers.  CPython compares an int with a float
    by value, without rounding the int; a NaN is unordered. *)
Definition compare (x y : num) : option comparison :=
  match xreal_of x, xreal_of y with
  | XNaN, _ | _, XNaN => None
  | XNegInf, XNegInf | XPosInf, XPosInf => Some Eq
  | XNegInf, _ | _, XPosInf => Some Lt
  | XPosInf, _ | _, XNegInf => Some Gt
  | XDyadic m1 e1, XDyadic m2 e2 => Some (dyadic_compare m1 e1 m2 e2)
  end.

(** [x < y] *)
Definition lt (x y : num) : bool :=
  match compare x y with Some Lt => true | _ => false end.

(** [x > y] *)
Definition gt (x y : num) : bool :=
  match compare x y with Some Gt => true | _ => false end.

(** [x <= y] *)
Definition le (x y : num) : bool :=
  match compare x y with Some (Lt | Eq) => true | _ => false end.

Definition pos_inf : num := PFloat (S754_infinity false).

(** The float nearest to an integer (ties to even), as [float(n)] gives
    it. *)
Definition float_of_Z (n : Z) : spec_float :=
  binary_normalize prec emax n 0 false.

End PyNum.

(** ** Python strings *)

Module PyStr.

Local Open Scope string_scope.

(** [s.startswith(c)] for a one-character prefix *)
Definition startswith (c : ascii) (s : string) : bool :=
  match s with
  | String c' _ => Ascii.eqb c' c
  | EmptyString => false
  end.

(** [s[1:]] *)
Definition drop1 (s : string) : string :=
  match s with
  | String _ r => r
  | EmptyString => EmptyString
  end.

(** [s.split(sep)] for a one-character separator: the pieces between the
    separators, empty pieces kept, never an empty list. *)
Fixpoint split (sep : ascii) (s : string) : list string :=
  match s with
  | EmptyString => [EmptyString]
  | String c r =>
      if Ascii.eqb c sep then EmptyString :: split sep r
      else match split sep r with
           | h :: t => String c h :: t
           | [] => [String c EmptyString]
           end
  end.

(** [s.count(c)] *)
Fixpoint count (c : ascii) (s : string) : nat :=
  match s with
  | EmptyString => O
  | String c' r => (if Ascii.eqb c' c then 1 else 0) + count c r
  end.

Definition is_empty (s : string) : bool :=
  match s with EmptyString => true | _ => false end.

End PyStr.

(** ** Reading a float literal

    [float(s)] on a string is Python's builtin.  The range reader below is
    stated over an arbitrary reader; [PyFloat.float] is the reader used
    wherever a statement is evaluated on a concrete specification.  It
    reads the decimal literals [[+-]digits[.digits][e[+-]digits]] and the
    words [inf], [infinity] and [nan], and rounds to the nearest binary64
    value (ties to even); on those it agrees with [float].  It returns
    [None] on everything else: where [float] raises [ValueError], and also
    on the literals with surrounding whitespace or with underscores
    between digits, which [float] accepts and no statement below
    evaluates. *)

Module PyFloat.

Definition digit_of (c : ascii) : option Z :=
  let n := Z.of_nat (nat_of_ascii c) in
  if (48 <=? n) && (n <=? 57) then Some (n - 48) else None.

(** The longest prefix of decimal digits, and what follows it. *)
Fixpoint take_digits (s : string) : list Z * string :=
  match s with
  | String c r =>
      match digit_of c with
      | Some d => let '(ds, rest) := take_digits r in (d :: ds, rest)
      | None => ([], s)
      end
  | EmptyString => ([], EmptyString)
  end.

Definition Z_of_digits (ds : list Z) : Z :=
  fold_left (fun acc d => 10 * acc + d) ds 0.

Definition lower (c : ascii) : ascii :=
  let n := nat_of_ascii c in
  if (65 <=? n)%nat && (n <=? 90)%nat then ascii_of_nat (n + 32) else c.

Fixpoint lower_str (s : string) : string :=
  match s with
  | String c r => String (lower c) (lower_str r)
  | EmptyString => EmptyString
  end.

(** An optional sign: [true] for [-]. *)
Definition take_sign (s : string) : bool * string :=
  match s with
  | String "-"%char r => (true, r)
  | String "+"%char r => (false, r)
  | _ => (false, s)
  end.

(** The exponent part: nothing, or [e] with a signed, non-empty run of
    digits up to the end of the literal. *)
Definition read_exponent (s : string) : option Z :=
  match s with
  | EmptyString => Some 0
  | String c r =>
      if Ascii.eqb (lower c) "e"%char then
        let '(neg, r1) := take_sign r in
        match take_digits r1 with
        | ((_ :: _) as ds, EmptyString) =>
            Some (if neg then - Z_of_digits ds else Z_of_digits ds)
        | _ => None
        end
      else None
  end.

(** [(-1)^neg * n * 10^k], rounded to binary64. *)
Definition decimal (neg : bool) (n k : Z) : spec_float :=
  match n with
  | Z.pos p =>
      if 0 <=? k then
        PyNum.float_of_Z ((if neg then Z.neg p else Z.pos p) * 10 ^ k)
      else
        SFdiv PyNum.prec PyNum.emax
          (S754_finite neg p 0)
          (S754_finite false (Z.to_pos (10 ^ (- k))) 0)
  | _ => S754_zero neg
  end.

Definition float (s : string) : option spec_float :=
  let '(neg, body) := take_sign s in
  let word := lower_str body in
  if String.eqb word "inf"%string || String.eqb word "infinity"%string then
    Some (S754_infinity neg)
  else if String.eqb word "nan"%string then Some S754_nan
  else
    let '(ip, r1) := take_digits body in
    let '(fp, r2) :=
      match r1 with
      | String "."%char r => take_digits r
      | _ => ([], r1)
      end in
    match ip ++ fp with
    | [] => None
    | ds =>
        match read_exponent r2 with
        | Some e => Some (decimal neg (Z_of_digits ds) (e - Z.of_nat (List.length fp)))
        | None => None
        end
    end.

End PyFloat.

(** ** Exceptions and results *)

Inductive exn : Type :=
| ValueError (msg : string)
| TypeError (msg : string)
| KeyError (key : Z).

Inductive result (A : Type) : Type :=
| Return (a : A)
| Raise (e : exn).

Arguments Return {A} a.
Arguments Raise {A} e.

Definition bind {A B : Type} (m : result A) (k : A -> result B) : result B :=
  match m with
  | Return a => k a
  | Raise e => Raise e
  end.

Notation "x <- m ;; k" := (bind m (fun x => k))
  (at level 61, m at next level, right associativity).

(** ** Return codes

    [OK], [WARNING], [CRITICAL] and [UNKNOWN] are module-level names.
    [Plugin_Check.parse] rebinds the last three, so the code that reads
    them takes the bindings current at the call. *)

Record globals : Type := {
  OK : Z;
  WARNING : Z;
  CRITICAL : Z;
  UNKNOWN : Z
}.

(** The bindings made when the module is imported. *)
Definition module_globals : globals :=
  {| OK := 0; WARNING := 1; CRITICAL := 2; UNKNOWN := 3 |}.

(** The dict is built once, at import, from the bindings of that time. *)
Definition errstat_to_str : list (Z * string) :=
  [ (OK module_globals, "OK"%string);
    (WARNING module_globals, "WARNING"%string);
    (CRITICAL module_globals, "CRITICAL"%string);
    (UNKNOWN module_globals, "UNKNOWN"%string) ].

(** [d[k]]: the value under the key, [KeyError] without one. *)
Fixpoint getitem (d : list (Z * string)) (k : Z) : result string :=
  match d with
  | [] => Raise (KeyError k)
  | (k', v) :: d' => if k' =? k then Return v else getitem d' k
  end.

(** ** Response *)

Record Response : Type := {
  status : Z;
  perfdata : option string;
  details : option (list string)
}.

(** What [print] and [sys.exit] leave behind: the text written to standard
    output and the exit code of the process. *)
Record exited : Type := {
  stdout : string;
  exit_code : Z
}.

(** [Response.__init__] *)
Definition Response_init (g : globals) : Response :=
  {| status := UNKNOWN g; perfdata := None; details := None |}.

(** [Response.set_status] *)
Definition set_status (self : Response) (status' : Z) : Response :=
  if status' >? status self then
    {| status := status'; perfdata := perfdata self; details := details self |}
  else self.

(** [Response.add_detail] *)
Definition add_detail (self : Response) (msg : string) : Response :=
  let l := match details self with
           | None => []
           | Some l => l
           end in
  {| status := status self; perfdata := perfdata self;
     details := Some (l ++ [msg]) |}.

(** The recorded lines; [None] and the empty list are both false in
    [if self.details:]. *)
Definition detail_lines (self : Response) : list string :=
  match details self with
  | None => []
  | Some l => l
  end.

(** [print(s)] *)
Definition print (s : string) : string := (s ++ String "010" EmptyString)%string.

(** [Response.exit]: the process ends here, with the text printed and the
    code handed to [sys.exit]; an unknown code stops at the dict lookup. *)
Definition Response_exit (self : Response) (status' : option Z)
    (msg : option string) : result exited :=
  let st := match status' with
            | Some s => s
            | None => status self
            end in
  s <- getitem errstat_to_str st ;;
  let s := match msg with
           | Some m => (s ++ " " ++ m)%string
           | None => s
           end in
  let s := match perfdata self with
           | Some p => (s ++ "|" ++ p)%string
           | None => s
           end in
  let s := fold_left (fun acc detail => (acc ++ String "010" detail)%string)
             (detail_lines self) s in
  Return {| stdout := print s; exit_code := st |}.

(** ** Check_Range *)

Record Check_Range : Type := {
  range : string;
  inside : bool;
  start : PyNum.num;
  end_ : PyNum.num
}.

(** [sys.maxsize] of a 64-bit CPython. *)
Definition sys_maxsize : Z := 2 ^ 63 - 1.

(** What [float(...)] is called on: a string, or a class object. *)
Inductive float_arg : Type :=
| AStr (s : string)
| AClass (name : string).

(** In [__init__] the parameter is [range_] and the attribute is
    [self.range]; the bare name [range] is the builtin class. *)
Definition builtin_range : float_arg := AClass "range".

Section Reader.

(** The builtin reader of float literals; [None] where it raises. *)
Variable float : string -> option spec_float.

(** [float(x)].  The text of the [ValueError] quotes the string as it is,
    which is [repr(s)] for a string without quotes, backslashes or
    unprintable characters; no statement below depends on that text. *)
Definition float_call (x : float_arg) : result PyNum.num :=
  match x with
  | AStr s =>
      match float s with
      | Some f => Return (PyNum.PFloat f)
      | None =>
          Raise (ValueError ("could not convert string to float: '" ++ s ++ "'"))
      end
  | AClass _ =>
      Raise (TypeError
        "float() argument must be a string or a real number, not 'type'")
  end.

(** [Check_Range.__init__] *)
Definition Check_Range_init (range_ : string) : result Check_Range :=
  let '(inside', range') :=
    if PyStr.startswith "@" range_ then (true, PyStr.drop1 range_)
    else (false, range_) in
  let tmp := PyStr.split ":" range' in
  if (2 <? List.length tmp)%nat then Raise (ValueError "Invalid range")
  else
    bounds <-
      (if (List.length tmp =? 2)%nat then
         start' <- (if negb (PyStr.is_empty (nth 0 tmp EmptyString))
                    then float_call (AStr (nth 0 tmp EmptyString))
                    else Return (PyNum.PInt 0)) ;;
         end' <- (if negb (PyStr.is_empty (nth 1 tmp EmptyString))
                  then float_call (AStr (nth 1 tmp EmptyString))
                  else Return (PyNum.PInt sys_maxsize)) ;;
         Return (start', end')
       else
         end' <- float_call builtin_range ;;
         Return (PyNum.PInt 0, end')) ;;
    let '(start', end') := bounds in
    if PyNum.gt start' end' then
      Raise (ValueError "Start must be lower than end")
    else
      Return {| range := range'; inside := inside';
                start := start'; end_ := end' |}.

End Reader.

(** [Check_Range.check] *)
Definition check (self : Check_Range) (value : PyNum.num) : bool :=
  PyNum.lt value (start self) || PyNum.gt value (end_ self).

(** [Check_Range.check_warn_crit] *)
Definition check_warn_crit (g : globals) (self : Check_Range)
    (value : PyNum.num) : Z :=
  if PyNum.gt value (end_ self) then CRITICAL g
  else if PyNum.gt value (start self) then WARNING g
  else OK g.

(** ** Vocabulary of the statements *)

(** The specification once a leading [@] is taken off. *)
Definition strip_at (s : string) : string :=
  if PyStr.startswith "@" s then PyStr.drop1 s else s.

(** The bounds read from the pieces of a specification, before they are
    compared: the same expression as in [Check_Range_init]. *)
Definition parsed_bounds (float : string -> option spec_float)
    (tmp : list string) : result (PyNum.num * PyNum.num) :=
  if (List.length tmp =? 2)%nat then
    start' <- (if negb (PyStr.is_empty (nth 0 tmp EmptyString))
               then float_call float (AStr (nth 0 tmp EmptyString))
               else Return (PyNum.PInt 0)) ;;
    end' <- (if negb (PyStr.is_empty (nth 1 tmp EmptyString))
             then float_call float (AStr (nth 1 tmp EmptyString))
             else Return (PyNum.PInt sys_maxsize)) ;;
    Return (start', end')
  else
    end' <- float_call float builtin_range ;;
    Return (PyNum.PInt 0, end').

(** A range with its [inside] flag replaced. *)
Definition with_inside (b : bool) (r : Check_Range) : Check_Range :=
  {| range := range r; inside := b; start := start r; end_ := end_ r |}.

Definition result_map {A B : Type} (f : A -> B) (m : result A) : result B :=
  match m with
  | Return a => Return (f a)
  | Raise e => Raise e
  end.

(** The detail lines as they are printed: each one after a line feed. *)
Fixpoint lines (l : list string) : string :=
  match l with
  | [] => EmptyString
  | d :: l' => String "010" (d ++ lines l')
  end.

(** The optional parts of the first output line. *)
Definition opt_part (sep : string) (o : option string) : string :=
  match o with
  | Some x => (sep ++ x)%string
  | None => EmptyString
  end.

(** The names of the return codes at the process boundary. *)
Definition code_names : list (Z * string) :=
  [ (0, "OK"%string); (1, "WARNING"%string);
    (2, "CRITICAL"%string); (3, "UNKNOWN"%string) ].

(** Float values used in the examples. *)
Definition fl (n : Z) : PyNum.num := PyNum.PFloat (PyNum.float_of_Z n).

(** ** External_Command

    The constructor runs the command; what it captures is [self.lines]. *)

(** [c.isspace()], on the code points below 256. *)
Definition isspace (c : ascii) : bool :=
  let n := nat_of_ascii c in
  ((9 <=? n) && (n <=? 13) || (28 <=? n) && (n <=? 32)
   || (n =? 133) || (n =? 160))%nat.

(** [s.rstrip()] *)
Fixpoint rstrip (s : string) : string :=
  match s with
  | EmptyString => EmptyString
  | String c r =>
      let r' := rstrip r in
      if PyStr.is_empty r' && isspace c then EmptyString else String c r'
  end.

(** [External_Command.__iter__]: the lines the generator yields, in order. *)
Definition External_Command_iter (lines : string) : list string :=
  filter (fun line => negb (PyStr.is_empty line))
         (map rstrip (PyStr.split "010" lines)).

(** ["\n".join(l)] *)
Fixpoint join_lines (l : list string) : string :=
  match l with
  | [] => EmptyString
  | [x] => x
  | x :: l' => (x ++ String "010" (join_lines l'))%string
  end.

(** Nothing but whitespace: [s.strip() == ''] *)
Fixpoint blank (s : string) : bool :=
  match s with
  | EmptyString => true
  | String c r => isspace c && blank r
  end.

(** A line as the generator yields them: not empty, no line feed, no
    whitespace at its end. *)
Definition clean_line (l : string) : Prop :=
  l <> EmptyString /\ PyStr.count "010" l = O /\ rstrip l = l.

(** ** Plugin_Check.parse *)

(** The dict of the [--*_as] choices, built at import. *)
Definition str_to_errstat : list (string * Z) :=
  [ ("ok"%string, OK module_globals);
    ("warning"%string, WARNING module_globals);
    ("critical"%string, CRITICAL module_globals);
    ("unknown"%string, UNKNOWN module_globals) ].

(** [d[k]] on string keys; [None] is [KeyError]. *)
Fixpoint getitem_str (d : list (string * Z)) (k : string) : option Z :=
  match d with
  | [] => None
  | (k', v) :: d' => if String.eqb k' k then Some v else getitem_str d' k
  end.

(** The three arguments of the parsed command line that [parse] reads. *)
Record Namespace : Type := {
  unknown_as : option string;
  warning_as : option string;
  critical_as : option string
}.

(** [Plugin_Check.parse], after [parse_args] has returned: the
    module-level names are rebound from the arguments, UNKNOWN first, then
    WARNING, then CRITICAL.  [parse_args] checks each of the three
    arguments against [choices=str_to_errstat] and ends the process with
    code 3 on any other word, so [parse] only ever sees the four words;
    [None] is the [KeyError] a namespace outside the choices would raise,
    which no command line reaches.  The verbose listing of the arguments
    changes nothing and is left out. *)
Definition Plugin_Check_parse (g : globals) (args : Namespace) : option globals :=
  match
    match unknown_as args with
    | Some k =>
        option_map (fun v => {| OK := OK g; WARNING := WARNING g;
                                CRITICAL := CRITICAL g; UNKNOWN := v |})
                   (getitem_str str_to_errstat k)
    | None => Some g
    end
  with
  | None => None
  | Some g1 =>
      match
        match warning_as args with
        | Some k =>
            option_map (fun v => {| OK := OK g1; WARNING := v;
                                    CRITICAL := CRITICAL g1; UNKNOWN := UNKNOWN g1 |})
                       (getitem_str str_to_errstat k)
        | None => Some g1
        end
      with
      | None => None
      | Some g2 =>
          match critical_as args with
          | Some k =>
              option_map (fun v => {| OK := OK g2; WARNING := WARNING g2;
                                      CRITICAL := v; UNKNOWN := UNKNOWN g2 |})
                         (getitem_str str_to_errstat k)
          | None => Some g2
          end
      end
  end.

(** The defaults of the three options. *)
Definition default_args : Namespace :=
  {| unknown_as := Some "unknown"%string;
     warning_as := Some "warning"%string;
     critical_as := Some "critical"%string |}.

(** Every code has a name in [errstat_to_str]. *)
Definition codes_named (g : globals) : Prop :=
  0 <= OK g <= 3 /\ 0 <= WARNING g <= 3
  /\ 0 <= CRITICAL g <= 3 /\ 0 <= UNKNOWN g <= 3.

(** ** check_file_status *)

(** [c.lower()], on the code points below 256. *)
Definition chr_lower (c : ascii) : ascii :=
  let n := nat_of_ascii c in
  if ((65 <=? n) && (n <=? 90)
      || (192 <=? n) && (n <=? 222) && negb (n =? 215))%nat
  then ascii_of_nat (n + 32) else c.

(** [s.lower()] *)
Fixpoint str_lower (s : string) : string :=
  match s with
  | String c r => String (chr_lower c) (str_lower r)
  | EmptyString => EmptyString
  end.

(** The parsed arguments [check] reads. *)
Record file_args : Type := {
  file : string;
  age_warning : PyNum.num;
  age_critical : PyNum.num
}.

(** What the file system and the clock answer: whether the path exists,
    whether [getmtime] succeeds, the age computed from it, whether [open]
    succeeds and what [readlines] returns. *)
Record file_probe : Type := {
  path_exists : bool;
  getmtime_ok : bool;
  age_hours : PyNum.num;
  open_ok : bool;
  readlines : list string
}.

(** One turn of the loop over the lines: the status word is looked for
    only while [retcode] is still [None]. *)
Definition scan_line (g : globals) (retcode : option Z) (line : string)
    : option Z :=
  let line := rstrip line in
  match retcode with
  | None =>
      let tmp := str_lower line in
      let retcode :=
        fold_left (fun rc kv => if String.prefix (fst kv) tmp
                                then Some (snd kv) else rc)
                  str_to_errstat None in
      match retcode with
      | None => Some (UNKNOWN g)
      | Some _ => retcode
      end
  | Some _ => retcode
  end.

(** [retcode] after the loop. *)
Definition scan_lines (g : globals) (lines : list string) : option Z :=
  fold_left (scan_line g) lines None.

Section FileStatus.

(** ["%0.2f" % x] *)
Variable fmt_2f : PyNum.num -> string.

(** [Check_File_Status.check], on the module's [response], for the runs in
    which [fromtimestamp] and [readlines] return: an exception of theirs
    other than the [OSError] of [getmtime] is not caught by the source and
    has no outcome here. *)
Definition Check_File_Status_check (g : globals) (response : Response)
    (args : file_args) (probe : file_probe) : result exited :=
  if negb (path_exists probe) then
    Response_exit response (Some (UNKNOWN g))
      (Some ("File '" ++ file args ++ "' does not exist")%string)
  else if negb (getmtime_ok probe) then
    Response_exit response (Some (UNKNOWN g))
      (Some ("Cannot get modified time for file " ++ file args)%string)
  else if PyNum.gt (age_hours probe) (age_critical args) then
    Response_exit response (Some (CRITICAL g))
      (Some ("File " ++ file args ++ " last modified "
               ++ fmt_2f (age_hours probe) ++ " hours ago, older than limit "
               ++ fmt_2f (age_critical args) ++ " hours")%string)
  else if PyNum.gt (age_hours probe) (age_warning args) then
    Response_exit response (Some (WARNING g))
      (Some ("File " ++ file args ++ " last modified "
               ++ fmt_2f (age_hours probe) ++ " hours ago, older than limit "
               ++ fmt_2f (age_warning args) ++ " hours")%string)
  else if negb (open_ok probe) then
    Response_exit response (Some (UNKNOWN g))
      (Some ("Cannot open file " ++ file args
               ++ ", is the path correct?")%string)
  else
    let retcode := scan_lines g (readlines probe) in
    Response_exit response (Some (OK g))
      (Some ("File " ++ file args ++ " last modified "
               ++ fmt_2f (age_hours probe) ++ " hours ago")%string).

End FileStatus.

(** [DEFAULT_AGE_WARNING] and [DEFAULT_AGE_CRITICAL], in hours. *)
Definition DEFAULT_AGE_WARNING : PyNum.num := fl 48.
Definition DEFAULT_AGE_CRITICAL : PyNum.num := fl 36.

(** ** check_zonemaster *)

Definition level_map : list (string * Z) :=
  [ ("NOTICE"%string, 0); ("WARNING"%string, 1); ("ERROR"%string, 2) ].

(** [return_code] after the loop of [Check_Zonemaster.check] over the
    reported entries, given the [level] of each in order. *)
Definition zonemaster_return_code (levels : list string) : Z :=
  fold_left
    (fun return_code level =>
       match getitem_str level_map level with
       | Some tmp => if tmp >? return_code then tmp else return_code
       | None => return_code
       end)
    levels 0.

(** ** check_becs_dhcp_scopes *)

(** [return_code] of one scope summary in [Icinga.write_result]. *)
Definition dhcp_return_code (g : globals) (free free_critical free_warning : Z)
    : Z :=
  if free <? free_critical then CRITICAL g
  else if free <? free_warning then WARNING g
  else OK g.

(** Case analysis on the first character of a line. *)
Ltac split_ascii_dec :=
  repeat match goal with
         | |- context [ascii_dec ?a ?b] =>
             destruct (ascii_dec a b) as [?E|?];
             [try congruence; try subst|]
         end.

(** * Properties *)

(** ** Strings *)

Lemma append_assoc (a b c : string) :
  ((a ++ b) ++ c = a ++ (b ++ c))%string.
Proof.
  induction a as [|x a IH]; simpl; [reflexivity | now rewrite IH].
Qed.

Lemma append_nil_r (a : string) : (a ++ EmptyString = a)%string.
Proof.
  induction a as [|x a IH]; simpl; [reflexivity | now rewrite IH].
Qed.

Lemma split_not_nil (sep : ascii) (s : string) : PyStr.split sep s <> [].
Proof.
  destruct s as [|c r]; simpl; [discriminate|].
  destruct (Ascii.eqb c sep); [discriminate|].
  destruct (PyStr.split sep r); discriminate.
Qed.

(** [split] returns one piece more than there are separators. *)
Lemma split_length (sep : ascii) (s : string) :
  List.length (PyStr.split sep s) = S (PyStr.count sep s).
Proof.
  induction s as [|c r IH]; simpl; [reflexivity|].
  destruct (Ascii.eqb c sep); simpl.
  - now rewrite IH.
  - destruct (PyStr.split sep r) as [|h t] eqn:E.
    + now destruct (split_not_nil sep r).
    + simpl in *. exact IH.
Qed.

Lemma split_no_sep (sep : ascii) (s : string) :
  PyStr.count sep s = O -> PyStr.split sep s = [s].
Proof.
  induction s as [|c r IH]; simpl; [reflexivity|].
  destruct (Ascii.eqb c sep); simpl; [discriminate|].
  intros H. now rewrite (IH H).
Qed.

Lemma split_app_sep (sep : ascii) (a b : string) :
  PyStr.count sep a = O ->
  PyStr.split sep (a ++ String sep b) = a :: PyStr.split sep b.
Proof.
  induction a as [|c r IH]; simpl.
  - intros _. now rewrite Ascii.eqb_refl.
  - destruct (Ascii.eqb c sep); simpl; [discriminate|].
    intros H. now rewrite (IH H).
Qed.

Lemma split_pair (sep : ascii) (a b : string) :
  PyStr.count sep a = O -> PyStr.count sep b = O ->
  PyStr.split sep (a ++ String sep b) = [a; b].
Proof.
  intros Ha Hb. now rewrite (split_app_sep _ _ _ Ha), (split_no_sep _ _ Hb).
Qed.

Lemma count_strip_at (s : string) :
  PyStr.count ":" (strip_at s) = PyStr.count ":" s.
Proof.
  unfold strip_at. destruct s as [|c r]; simpl; [reflexivity|].
  destruct (Ascii.eqb c "@") eqn:E; simpl; [|reflexivity].
  apply Ascii.eqb_eq in E. subst c. reflexivity.
Qed.

Lemma is_empty_false (s : string) : s <> EmptyString -> PyStr.is_empty s = false.
Proof. destruct s; [congruence | reflexivity]. Qed.

(** ** Numbers *)

Lemma dyadic_compare_int (a b : Z) : PyNum.dyadic_compare a 0 b 0 = (a ?= b).
Proof.
  unfold PyNum.dyadic_compare. simpl. now rewrite !Z.mul_1_r.
Qed.

(** On two ints the comparisons are those of the integers. *)
Lemma gt_int (a b : Z) : PyNum.gt (PyNum.PInt a) (PyNum.PInt b) = (b <? a).
Proof.
  unfold PyNum.gt, PyNum.compare. simpl. rewrite dyadic_compare_int.
  rewrite Z.ltb_compare, (Z.compare_antisym a b).
  destruct (a ?= b); reflexivity.
Qed.

Lemma lt_int (a b : Z) : PyNum.lt (PyNum.PInt a) (PyNum.PInt b) = (a <? b).
Proof.
  unfold PyNum.lt, PyNum.compare. simpl. rewrite dyadic_compare_int.
  rewrite Z.ltb_compare. destruct (a ?= b); reflexivity.
Qed.

(** [x <= y] excludes [x > y]. *)
Lemma le_not_gt (x y : PyNum.num) : PyNum.le x y = true -> PyNum.gt x y = false.
Proof.
  unfold PyNum.le, PyNum.gt.
  destruct (PyNum.compare x y) as [[| |]|]; intros H; try reflexivity; discriminate.
Qed.

(** Nothing is above positive infinity. *)
Lemma gt_pos_inf (x : PyNum.num) : PyNum.gt x PyNum.pos_inf = false.
Proof.
  unfold PyNum.gt, PyNum.compare. simpl.
  destruct (PyNum.xreal_of x); reflexivity.
Qed.

(** ** Check_Range.__init__ *)

Section ReaderFacts.

Variable float : string -> option spec_float.

(** The constructor in one piece: the [@] flag, the count of pieces, the
    bounds, the comparison. *)
Lemma Check_Range_init_unfold (s : string) :
  Check_Range_init float s =
  let tmp := PyStr.split ":" (strip_at s) in
  if (2 <? List.length tmp)%nat then Raise (ValueError "Invalid range")
  else
    bounds <- parsed_bounds float tmp ;;
    if PyNum.gt (fst bounds) (snd bounds) then
      Raise (ValueError "Start must be lower than end")
    else
      Return {| range := strip_at s; inside := PyStr.startswith "@" s;
                start := fst bounds; end_ := snd bounds |}.
Proof.
  unfold Check_Range_init, strip_at, parsed_bounds.
  destruct (PyStr.startswith "@" s); cbv zeta;
    destruct (2 <? _)%nat; try reflexivity;
    destruct (_ =? 2)%nat; try reflexivity.
  all: repeat match goal with
       | |- context [if ?b then _ else _] => destruct b; simpl
       | |- context [match float ?x with _ => _ end] => destruct (float x); simpl
       end; try reflexivity.
Qed.

(** Bounds come out only of a specification with exactly two pieces. *)
Lemma parsed_bounds_two (tmp : list string) (b : PyNum.num * PyNum.num) :
  parsed_bounds float tmp = Return b -> List.length tmp = 2%nat.
Proof.
  unfold parsed_bounds. destruct (List.length tmp =? 2)%nat eqn:E.
  - intros _. now apply Nat.eqb_eq.
  - simpl. discriminate.
Qed.

Lemma parsed_bounds_pair (a b : string) :
  parsed_bounds float [a; b] =
  (start' <- (if negb (PyStr.is_empty a) then float_call float (AStr a)
              else Return (PyNum.PInt 0)) ;;
   end' <- (if negb (PyStr.is_empty b) then float_call float (AStr b)
            else Return (PyNum.PInt sys_maxsize)) ;;
   Return (start', end')).
Proof. reflexivity. Qed.

(** A specification without a colon stops at [float(range)]. *)
Lemma Check_Range_init_no_colon (s : string) :
  PyStr.count ":" s = O ->
  Check_Range_init float s =
  Raise (TypeError
    "float() argument must be a string or a real number, not 'type'").
Proof.
  intros H. rewrite Check_Range_init_unfold. cbv zeta.
  rewrite <- count_strip_at in H.
  rewrite (split_no_sep _ _ H). reflexivity.
Qed.

(** Three pieces or more are refused. *)
Lemma Check_Range_init_many_colons (s : string) :
  (2 <= PyStr.count ":" s)%nat ->
  Check_Range_init float s = Raise (ValueError "Invalid range").
Proof.
  intros H. rewrite Check_Range_init_unfold. cbv zeta.
  rewrite split_length, count_strip_at.
  destruct (Nat.ltb_spec 2 (S (PyStr.count ":" s))); [reflexivity | lia].
Qed.

(** The [@] prefix changes the flag and nothing else. *)
Lemma Check_Range_init_at (s : string) :
  PyStr.startswith "@" s = false ->
  Check_Range_init float (String "@" s) =
  result_map (with_inside true) (Check_Range_init float s).
Proof.
  intros H. rewrite !Check_Range_init_unfold. cbv zeta.
  unfold strip_at. rewrite H. simpl PyStr.startswith. simpl PyStr.drop1.
  cbv iota.
  destruct (2 <? _)%nat; [reflexivity|].
  destruct (parsed_bounds float _) as [[st en]|e]; simpl; [|reflexivity].
  destruct (PyNum.gt st en); reflexivity.
Qed.

Lemma Check_Range_init_inside (s : string) (r : Check_Range) :
  Check_Range_init float s = Return r -> inside r = PyStr.startswith "@" s.
Proof.
  rewrite Check_Range_init_unfold. cbv zeta.
  destruct (2 <? _)%nat; [discriminate|].
  destruct (parsed_bounds float _) as [[st en]|e]; simpl; [|discriminate].
  destruct (PyNum.gt st en); [discriminate|].
  intros H. injection H as <-. reflexivity.
Qed.

(** A specification that ends in its only colon has [sys.maxsize] as its
    upper bound. *)
Lemma Check_Range_init_open_end (a : string) (r : Check_Range) :
  Check_Range_init float (a ++ ":") = Return r ->
  end_ r = PyNum.PInt sys_maxsize.
Proof.
  rewrite Check_Range_init_unfold. cbv zeta.
  destruct (2 <? _)%nat eqn:L; [discriminate|].
  destruct (parsed_bounds float _) as [[st en]|e] eqn:B; simpl; [|discriminate].
  destruct (PyNum.gt st en); [discriminate|].
  intros H. injection H as <-. simpl.
  assert (C : PyStr.count ":" (strip_at (a ++ ":")) = 1%nat).
  { apply parsed_bounds_two in B. rewrite split_length in B. lia. }
  assert (P : exists a', strip_at (a ++ ":") = (a' ++ ":")%string).
  { unfold strip_at. destruct a as [|c a']; simpl.
    - exists EmptyString. reflexivity.
    - destruct (Ascii.eqb c "@"); [exists a' | exists (String c a')]; reflexivity. }
  destruct P as [a' P]. rewrite P in B, C.
  assert (Ca : PyStr.count ":" a' = O).
  { clear -C. induction a' as [|c a' IH]; simpl in *; [reflexivity|].
    destruct (Ascii.eqb c ":"); simpl in *; [|auto].
    exfalso. clear IH. induction a'; simpl in *; [discriminate|].
    destruct (Ascii.eqb _ ":"); simpl in *; [discriminate | auto]. }
  rewrite (split_pair ":" a' EmptyString Ca eq_refl) in B.
  rewrite parsed_bounds_pair in B. simpl in B.
  destruct (if negb (PyStr.is_empty a') then _ else _); simpl in B;
    [injection B as _ <-; reflexivity | discriminate].
Qed.

(** A specification that begins with a colon has the int [0] as its lower
    bound. *)
Lemma Check_Range_init_open_start (b : string) (r : Check_Range) :
  Check_Range_init float (String ":" b) = Return r ->
  start r = PyNum.PInt 0.
Proof.
  rewrite Check_Range_init_unfold. cbv zeta.
  destruct (2 <? _)%nat eqn:L; [discriminate|].
  destruct (parsed_bounds float _) as [[st en]|e] eqn:B; simpl; [|discriminate].
  destruct (PyNum.gt st en); [discriminate|].
  intros H. injection H as <-. simpl.
  pose proof (parsed_bounds_two _ _ B) as Len.
  unfold strip_at in B, Len. simpl in B, Len.
  destruct (PyStr.split ":" b) as [|x [|y t]] eqn:S; simpl in Len; try discriminate.
  rewrite parsed_bounds_pair in B. simpl in B.
  destruct (if negb (PyStr.is_empty x) then _ else _); simpl in B;
    [injection B as <- _; reflexivity | discriminate].
Qed.

End ReaderFacts.

(** C1.  A specification ["N"] with no colon, [N] a float literal, is meant
    to give [start = 0], [end = N], [inside = False].  The constructor
    reaches [float(range)] instead, where [range] is the builtin class, and
    raises [TypeError]: no such specification constructs a range. *)
Theorem Check_Range_init_end_only_raises
    (float : string -> option spec_float) (n : string) (x : spec_float) :
  PyStr.count ":" n = O ->
  float n = Some x ->
  Check_Range_init float n =
    Raise (TypeError
      "float() argument must be a string or a real number, not 'type'")
  /\ Check_Range_init float n <>
       Return {| range := n; inside := false;
                 start := PyNum.PInt 0; end_ := PyNum.PFloat x |}.
Proof.
  intros Hc _. rewrite (Check_Range_init_no_colon float n Hc).
  split; [reflexivity | discriminate].
Qed.

Lemma Check_Range_init_end_only_raises_at_10 :
  Check_Range_init PyFloat.float "10" =
    Raise (TypeError
      "float() argument must be a string or a real number, not 'type'")
  /\ Check_Range_init PyFloat.float "10" <>
       Return {| range := "10"; inside := false;
                 start := PyNum.PInt 0;
                 end_ := PyNum.PFloat (PyNum.float_of_Z 10) |}.
Proof.
  apply (Check_Range_init_end_only_raises PyFloat.float "10"
           (PyNum.float_of_Z 10)); reflexivity.
Defined.

(** ** Check_Range.check *)

(** [check] never reads the [inside] flag. *)
Lemma check_with_inside (b : bool) (r : Check_Range) (v : PyNum.num) :
  check (with_inside b r) v = check r v.
Proof. reflexivity. Qed.

(** Outside the closed interval, on int bounds and an int value. *)
Lemma check_int (s : string) (i : bool) (a b v : Z) :
  check {| range := s; inside := i;
           start := PyNum.PInt a; end_ := PyNum.PInt b |} (PyNum.PInt v)
  = (v <? a) || (b <? v).
Proof. unfold check. simpl. now rewrite lt_int, gt_int. Qed.

(** The plain range [0:100]: 0, 50 and 100 raise no alert, 150 does. *)
Lemma check_plain_range :
  exists r, Check_Range_init PyFloat.float "0:100" = Return r
    /\ inside r = false
    /\ check r (fl 0) = false /\ check r (fl 50) = false
    /\ check r (fl 100) = false /\ check r (fl 150) = true.
Proof. eexists. split; [reflexivity|]. now vm_compute. Qed.

(** C2.  [check] is meant to alert exactly when
    [(value < start or value > end)] differs from the [@] flag.  On the
    range read from ["@10:20"] the flag is set, yet 15 raises no alert and 5
    does: the result is [value < start or value > end], the flag unread. *)
Theorem check_at_prefixed_range :
  exists r, Check_Range_init PyFloat.float "@10:20" = Return r
    /\ inside r = true
    /\ start r = fl 10 /\ end_ r = fl 20
    /\ check r (fl 15) = false
    /\ check r (fl 5) = true
    /\ check r (fl 15) <> xorb (PyNum.lt (fl 15) (start r)
                                 || PyNum.gt (fl 15) (end_ r)) (inside r).
Proof.
  eexists. split; [reflexivity|]. vm_compute. repeat split; discriminate.
Qed.

(** ** Response.set_status *)

Lemma set_status_status (r : Response) (s : Z) :
  status (set_status r s) = Z.max (status r) s.
Proof.
  unfold set_status. destruct (Z.gtb_spec s (status r)); simpl; lia.
Qed.

Lemma set_status_fold (l : list Z) (r : Response) :
  status (fold_left set_status l r) = fold_left Z.max l (status r).
Proof.
  revert r. induction l as [|s l IH]; intros r; simpl; [reflexivity|].
  now rewrite IH, set_status_status.
Qed.

Lemma fold_max_ge (l : list Z) (a : Z) : a <= fold_left Z.max l a.
Proof.
  revert a. induction l as [|s l IH]; intros a; simpl; [lia|].
  specialize (IH (Z.max a s)). lia.
Qed.

(** C3, as the claim has it: the four statuses recorded into a fresh
    response would leave CRITICAL.  A fresh response holds UNKNOWN, the
    highest code, and keeps it. *)
Lemma set_status_fresh_not_critical :
  status (fold_left set_status
            [OK module_globals; WARNING module_globals;
             OK module_globals; CRITICAL module_globals]
            (Response_init module_globals))
  <> CRITICAL module_globals.
Proof. vm_compute. discriminate. Qed.

(** C3, amended.  Each [set_status] call leaves the larger of the stored
    and the given status, with OK=0 < WARNING=1 < CRITICAL=2 < UNKNOWN=3;
    so OK, WARNING, OK, CRITICAL recorded into a response whose status is
    OK leave CRITICAL, and recorded into a fresh response, which starts at
    UNKNOWN, leave UNKNOWN. *)
Theorem set_status_running_max (r : Response) :
  (forall s, status (set_status r s) = Z.max (status r) s)
  /\ (forall l, status (fold_left set_status l r) = fold_left Z.max l (status r))
  /\ (OK module_globals = 0 /\ WARNING module_globals = 1
      /\ CRITICAL module_globals = 2 /\ UNKNOWN module_globals = 3)
  /\ (status r = OK module_globals ->
      status (fold_left set_status
                [OK module_globals; WARNING module_globals;
                 OK module_globals; CRITICAL module_globals] r)
      = CRITICAL module_globals)
  /\ status (fold_left set_status
               [OK module_globals; WARNING module_globals;
                OK module_globals; CRITICAL module_globals]
               (Response_init module_globals))
     = UNKNOWN module_globals.
Proof.
  split; [exact (set_status_status r)|].
  split; [intros l; apply set_status_fold|].
  split; [repeat split|].
  split; [|reflexivity].
  intros H. rewrite set_status_fold, H. reflexivity.
Qed.

Lemma set_status_running_max_from_ok :
  status (fold_left set_status
            [OK module_globals; WARNING module_globals;
             OK module_globals; CRITICAL module_globals]
            {| status := 0; perfdata := None; details := None |})
  = CRITICAL module_globals.
Proof.
  apply (set_status_running_max
           {| status := 0; perfdata := None; details := None |}).
  reflexivity.
Defined.

(** C4.  For ["A:"] the upper bound is meant to be positive infinity.  The
    constructor stores [sys.maxsize], an int: on the range read from
    ["10:"] the value 1e19, which no infinite bound would flag, raises an
    alert.  The lower bound read from [":5"] is 0, as the claim says. *)
Theorem Check_Range_init_open_end_is_maxsize :
  (exists r, Check_Range_init PyFloat.float "10:" = Return r
     /\ end_ r = PyNum.PInt sys_maxsize
     /\ end_ r <> PyNum.pos_inf
     /\ check r (fl (10 ^ 19)) = true
     /\ PyNum.gt (fl (10 ^ 19)) PyNum.pos_inf = false)
  /\ (exists r, Check_Range_init PyFloat.float ":5" = Return r
        /\ start r = PyNum.PInt 0).
Proof.
  split; eexists; (split; [reflexivity|]); vm_compute; repeat split.
  discriminate.
Qed.

(** ** Check_Range.check_warn_crit *)

(** C5.  With [start] as the warning bound and [end] as the critical
    bound, [check_warn_crit] returns CRITICAL when the value is above the
    critical bound, otherwise WARNING when it is above the warning bound,
    otherwise OK; on the range read from ["20:50"], 30 gives WARNING, 60
    gives CRITICAL and 10 gives OK. *)
Theorem check_warn_crit_thresholds
    (g : globals) (r : Check_Range) (v : PyNum.num) :
  (PyNum.gt v (end_ r) = true -> check_warn_crit g r v = CRITICAL g)
  /\ (PyNum.gt v (end_ r) = false -> PyNum.gt v (start r) = true ->
      check_warn_crit g r v = WARNING g)
  /\ (PyNum.gt v (end_ r) = false -> PyNum.gt v (start r) = false ->
      check_warn_crit g r v = OK g)
  /\ (exists r0, Check_Range_init PyFloat.float "20:50" = Return r0
        /\ start r0 = fl 20 /\ end_ r0 = fl 50
        /\ check_warn_crit module_globals r0 (fl 30) = WARNING module_globals
        /\ check_warn_crit module_globals r0 (fl 60) = CRITICAL module_globals
        /\ check_warn_crit module_globals r0 (fl 10) = OK module_globals).
Proof.
  unfold check_warn_crit. repeat split.
  - now intros ->.
  - now intros -> ->.
  - now intros -> ->.
  - eexists. split; [reflexivity|]. now vm_compute.
Qed.

Lemma check_warn_crit_thresholds_at_20_50 :
  let r := {| range := "20:50"; inside := false;
              start := fl 20; end_ := fl 50 |} in
  check_warn_crit module_globals r (fl 60) = 2
  /\ check_warn_crit module_globals r (fl 30) = 1
  /\ check_warn_crit module_globals r (fl 10) = 0.
Proof.
  intros r.
  pose proof (check_warn_crit_thresholds module_globals r (fl 60)) as [H60 _].
  pose proof (check_warn_crit_thresholds module_globals r (fl 30)) as [_ [H30 _]].
  pose proof (check_warn_crit_thresholds module_globals r (fl 10)) as [_ [_ [H10 _]]].
  split; [apply H60; reflexivity|].
  split; [apply H30; reflexivity | apply H10; reflexivity].
Defined.

(** On int thresholds and an int value the comparisons are those of the
    integers. *)
Lemma check_warn_crit_int (g : globals) (s : string) (i : bool) (w c v : Z) :
  check_warn_crit g {| range := s; inside := i;
                       start := PyNum.PInt w; end_ := PyNum.PInt c |}
                  (PyNum.PInt v)
  = if c <? v then CRITICAL g else if w <? v then WARNING g else OK g.
Proof. unfold check_warn_crit. simpl. now rewrite !gt_int. Qed.

(** ** Refused specifications *)

(** C6.  The constructor raises [ValueError], and returns no range, for
    every specification with two or more colons and for every
    specification whose bounds are read with [start > end], ["10:5"] among
    them. *)
Theorem Check_Range_init_rejects
    (float : string -> option spec_float) (s : string) :
  ((2 <= PyStr.count ":" s)%nat ->
   Check_Range_init float s = Raise (ValueError "Invalid range"))
  /\ (forall st en,
        parsed_bounds float (PyStr.split ":" (strip_at s)) = Return (st, en) ->
        PyNum.gt st en = true ->
        Check_Range_init float s =
          Raise (ValueError "Start must be lower than end"))
  /\ (forall a b x y,
        s = (a ++ ":" ++ b)%string ->
        PyStr.count ":" a = O -> PyStr.count ":" b = O ->
        a <> EmptyString -> b <> EmptyString ->
        PyStr.startswith "@" a = false ->
        float a = Some x -> float b = Some y ->
        PyNum.gt (PyNum.PFloat x) (PyNum.PFloat y) = true ->
        Check_Range_init float s =
          Raise (ValueError "Start must be lower than end")).
Proof.
  assert (Bounds : forall st en,
             parsed_bounds float (PyStr.split ":" (strip_at s)) = Return (st, en) ->
             PyNum.gt st en = true ->
             Check_Range_init float s =
               Raise (ValueError "Start must be lower than end")).
  { intros st en B G. rewrite Check_Range_init_unfold. cbv zeta.
    rewrite (parsed_bounds_two _ _ _ B). rewrite B. simpl. now rewrite G. }
  split; [apply Check_Range_init_many_colons|].
  split; [exact Bounds|].
  intros a b x y -> Ca Cb Na Nb At Fa Fb G.
  apply (Bounds (PyNum.PFloat x) (PyNum.PFloat y)); [|exact G].
  assert (St : strip_at (a ++ ":" ++ b) = (a ++ ":" ++ b)%string).
  { unfold strip_at. destruct a as [|c a]; [congruence|].
    simpl in At |- *. now rewrite At. }
  rewrite St. simpl append. rewrite (split_pair ":" a b Ca Cb).
  rewrite parsed_bounds_pair.
  rewrite (is_empty_false a Na), (is_empty_false b Nb). simpl.
  now rewrite Fa, Fb.
Qed.

Lemma Check_Range_init_rejects_examples :
  Check_Range_init PyFloat.float "1:2:3" = Raise (ValueError "Invalid range")
  /\ Check_Range_init PyFloat.float "10:5" =
       Raise (ValueError "Start must be lower than end")
  /\ Check_Range_init PyFloat.float ":-1" =
       Raise (ValueError "Start must be lower than end").
Proof.
  split; [|split].
  - apply (Check_Range_init_rejects PyFloat.float "1:2:3"). simpl. lia.
  - destruct (Check_Range_init_rejects PyFloat.float "10:5") as [_ [_ H]].
    apply (H "10"%string "5"%string
             (PyNum.float_of_Z 10) (PyNum.float_of_Z 5));
      try reflexivity; discriminate.
  - destruct (Check_Range_init_rejects PyFloat.float ":-1") as [_ [H _]].
    apply (H (PyNum.PInt 0) (PyNum.PFloat (PyNum.float_of_Z (-1))));
      reflexivity.
Defined.

(** ** The [@] prefix *)

(** C8.  For literals [A <= B], ["@A:B"] is read with the same [start] and
    [end] as ["A:B"], and with [inside] true where ["A:B"] has it false. *)
Theorem Check_Range_init_at_same_bounds
    (float : string -> option spec_float) (a b : string) (x y : spec_float) :
  PyStr.count ":" a = O -> PyStr.count ":" b = O ->
  a <> EmptyString -> b <> EmptyString ->
  PyStr.startswith "@" a = false ->
  float a = Some x -> float b = Some y ->
  PyNum.le (PyNum.PFloat x) (PyNum.PFloat y) = true ->
  Check_Range_init float (a ++ ":" ++ b) =
    Return {| range := (a ++ ":" ++ b)%string; inside := false;
              start := PyNum.PFloat x; end_ := PyNum.PFloat y |}
  /\ Check_Range_init float ("@" ++ a ++ ":" ++ b) =
       Return {| range := (a ++ ":" ++ b)%string; inside := true;
                 start := PyNum.PFloat x; end_ := PyNum.PFloat y |}.
Proof.
  intros Ca Cb Na Nb At Fa Fb L.
  assert (At' : PyStr.startswith "@" (a ++ ":" ++ b) = false).
  { destruct a as [|c a]; [congruence | exact At]. }
  assert (Plain : Check_Range_init float (a ++ ":" ++ b) =
                  Return {| range := (a ++ ":" ++ b)%string; inside := false;
                            start := PyNum.PFloat x; end_ := PyNum.PFloat y |}).
  { rewrite Check_Range_init_unfold. cbv zeta.
    unfold strip_at. rewrite At'. simpl append.
    rewrite (split_pair ":" a b Ca Cb). simpl Nat.ltb. cbv iota.
    rewrite parsed_bounds_pair.
    rewrite (is_empty_false a Na), (is_empty_false b Nb). simpl.
    rewrite Fa, Fb. simpl. now rewrite (le_not_gt _ _ L). }
  split; [exact Plain|].
  change ("@" ++ a ++ ":" ++ b)%string with (String "@" (a ++ ":" ++ b)).
  rewrite (Check_Range_init_at float _ At'), Plain. reflexivity.
Qed.

Lemma Check_Range_init_at_same_bounds_10_20 :
  Check_Range_init PyFloat.float "10:20" =
    Return {| range := "10:20"; inside := false;
              start := fl 10; end_ := fl 20 |}
  /\ Check_Range_init PyFloat.float "@10:20" =
       Return {| range := "10:20"; inside := true;
                 start := fl 10; end_ := fl 20 |}.
Proof.
  apply (Check_Range_init_at_same_bounds PyFloat.float "10" "20"
           (PyNum.float_of_Z 10) (PyNum.float_of_Z 20));
    try reflexivity; discriminate.
Defined.

(** ** Response.exit *)

Lemma getitem_code_names (st : Z) (name : string) :
  In (st, name) code_names -> getitem errstat_to_str st = Return name.
Proof.
  unfold code_names. simpl.
  intros [H|[H|[H|[H|[]]]]]; injection H as <- <-; reflexivity.
Qed.

Lemma fold_lines (l : list string) (s : string) :
  fold_left (fun acc detail => (acc ++ String "010" detail)%string) l s
  = (s ++ lines l)%string.
Proof.
  revert s. induction l as [|d l IH]; intros s; simpl.
  - now rewrite append_nil_r.
  - rewrite IH, append_assoc. reflexivity.
Qed.

Lemma add_detail_lines (r : Response) (d : string) :
  detail_lines (add_detail r d) = detail_lines r ++ [d].
Proof. unfold detail_lines, add_detail. simpl. now destruct (details r). Qed.

(** Details are kept in the order of the calls; nothing else changes. *)
Lemma add_detail_fold (ds : list string) (r : Response) :
  detail_lines (fold_left add_detail ds r) = detail_lines r ++ ds
  /\ status (fold_left add_detail ds r) = status r
  /\ perfdata (fold_left add_detail ds r) = perfdata r.
Proof.
  revert r. induction ds as [|d ds IH]; intros r; simpl.
  - now rewrite app_nil_r.
  - destruct (IH (add_detail r d)) as [Hl [Hs Hp]].
    rewrite Hl, Hs, Hp, add_detail_lines, <- app_assoc. now simpl.
Qed.

(** C7.  [exit] prints the name of the final status, then the message,
    then [|] and the perfdata when there is one, then every detail on a
    line of its own in the order of the [add_detail] calls, and ends the
    process with the numeric code of that status (OK=0, WARNING=1,
    CRITICAL=2, UNKNOWN=3). *)
Theorem Response_exit_output
    (r : Response) (ds : list string) (status' : option Z)
    (msg : option string) (st : Z) (name : string) :
  st = match status' with Some s => s | None => status r end ->
  In (st, name) code_names ->
  Response_exit (fold_left add_detail ds r) status' msg =
    Return {| stdout := (name ++ opt_part " " msg
                              ++ opt_part "|" (perfdata r)
                              ++ lines (detail_lines r ++ ds)
                              ++ String "010" EmptyString)%string;
              exit_code := st |}.
Proof.
  intros Hst Hin. unfold Response_exit.
  destruct (add_detail_fold ds r) as [Hl [Hs Hp]].
  rewrite Hl, Hs, Hp, <- Hst, (getitem_code_names _ _ Hin). simpl.
  rewrite fold_lines. unfold print, opt_part.
  destruct msg as [m|], (perfdata r) as [p|]; simpl;
    now rewrite ?append_assoc.
Qed.

Lemma Response_exit_output_example :
  Response_exit
    (fold_left add_detail ["Peer a, Offset OK"%string; "Peer b, peer is DOWN"%string]
       {| status := 0; perfdata := Some "'Messages'=2;;"%string; details := None |})
    (Some 1) (Some "Of total 2 NTP peers is 1 down"%string)
  = Return {| stdout := String.concat (String "010" EmptyString)
                          ["WARNING Of total 2 NTP peers is 1 down|'Messages'=2;;"%string;
                           "Peer a, Offset OK"%string;
                           "Peer b, peer is DOWN"%string; EmptyString];
              exit_code := 1 |}.
Proof.
  apply (Response_exit_output
           {| status := 0; perfdata := Some "'Messages'=2;;"%string; details := None |}
           ["Peer a, Offset OK"%string; "Peer b, peer is DOWN"%string]
           (Some 1) (Some "Of total 2 NTP peers is 1 down"%string)
           1 "WARNING"%string).
  - reflexivity.
  - simpl. right. left. reflexivity.
Defined.

(** C9, as the claim has it: a response on which nothing was recorded
    would always finish with a status the caller handed to [exit], never
    with one of the module's own.  With [None] for the status, the fresh
    response finishes with the UNKNOWN its constructor stored. *)
Lemma Response_exit_fresh_own_default :
  Response_exit (Response_init module_globals) None None =
    Return {| stdout := print "UNKNOWN"; exit_code := 3 |}
  /\ ~ (forall status' msg out,
          Response_exit (Response_init module_globals) status' msg = Return out ->
          status' = Some (exit_code out)).
Proof.
  split; [reflexivity|].
  intros H. specialize (H None None _ eq_refl). discriminate H.
Qed.

(** C9, amended.  A response on which nothing was recorded exits with the
    status the caller hands to [exit] when it hands one, whatever status
    the constructor stored; when the caller hands [None], it exits with
    the status the constructor stored, UNKNOWN: code 3 for the response
    made at import. *)
Theorem Response_exit_fresh
    (g : globals) (s : Z) (msg : option string) (name : string) :
  In (s, name) code_names ->
  Response_exit (Response_init g) (Some s) msg =
    Return {| stdout := print (name ++ opt_part " " msg); exit_code := s |}
  /\ Response_exit (Response_init g) None msg =
       Response_exit (Response_init g) (Some (UNKNOWN g)) msg
  /\ Response_exit (Response_init module_globals) None msg =
       Return {| stdout := print ("UNKNOWN" ++ opt_part " " msg);
                 exit_code := 3 |}.
Proof.
  intros Hin. split; [|split].
  - unfold Response_exit.
    rewrite (getitem_code_names _ _ Hin). unfold Response_init, opt_part. simpl.
    destruct msg as [m|]; [reflexivity|].
    now rewrite append_nil_r.
  - reflexivity.
  - destruct msg as [m|]; reflexivity.
Qed.

Lemma Response_exit_fresh_ok :
  Response_exit (Response_init module_globals) (Some 0) (Some "fine"%string) =
    Return {| stdout := print "OK fine"; exit_code := 0 |}
  /\ Response_exit (Response_init module_globals) None (Some "fine"%string) =
       Response_exit (Response_init module_globals)
         (Some (UNKNOWN module_globals)) (Some "fine"%string)
  /\ Response_exit (Response_init module_globals) None (Some "fine"%string) =
       Return {| stdout := print "UNKNOWN fine"; exit_code := 3 |}.
Proof.
  apply (Response_exit_fresh module_globals 0 (Some "fine"%string) "OK"%string).
  simpl. left. reflexivity.
Defined.

(** ** The stored status never decreases *)

Lemma firstn_S_fold (l : list Z) (n : nat) (r : Response) :
  fold_left set_status (firstn (S n) l) r =
  match nth_error l n with
  | Some s => set_status (fold_left set_status (firstn n l) r) s
  | None => fold_left set_status (firstn n l) r
  end.
Proof.
  revert n r. induction l as [|x l IH]; intros n r.
  - destruct n; reflexivity.
  - destruct n as [|n]; [reflexivity|].
    change (firstn (S (S n)) (x :: l)) with (x :: firstn (S n) l).
    change (firstn (S n) (x :: l)) with (x :: firstn n l).
    simpl fold_left. simpl nth_error. apply IH.
Qed.

(** C10.  A [set_status] call never lowers the stored status, and a status
    not above the stored one leaves the response as it was; so along every
    sequence of calls the status after a call is at least the status
    before it.  A fresh response starts at UNKNOWN = 3. *)
Theorem set_status_monotone (r : Response) :
  (forall s, status r <= status (set_status r s))
  /\ (forall s, s <= status r -> set_status r s = r)
  /\ (forall l n,
        status (fold_left set_status (firstn n l) r)
        <= status (fold_left set_status (firstn (S n) l) r))
  /\ (forall l, status r <= status (fold_left set_status l r))
  /\ status (Response_init module_globals) = 3.
Proof.
  split; [intros s; rewrite set_status_status; lia|].
  split.
  { intros s H. unfold set_status.
    destruct (Z.gtb_spec s (status r)); [lia | reflexivity]. }
  split.
  { intros l n. rewrite firstn_S_fold.
    destruct (nth_error l n); [rewrite set_status_status|]; lia. }
  split; [|reflexivity].
  intros l. rewrite set_status_fold. apply fold_max_ge.
Qed.

Lemma set_status_monotone_at_critical :
  set_status {| status := 2; perfdata := None; details := None |} 1
  = {| status := 2; perfdata := None; details := None |}.
Proof.
  apply (set_status_monotone
           {| status := 2; perfdata := None; details := None |}).
  simpl. lia.
Defined.

(** * Further properties *)

(** ** The order on numbers *)

(** Two dyadics can be compared at any common scale below both exponents. *)
Lemma dyadic_compare_at (k m1 e1 m2 e2 : Z) :
  k <= e1 -> k <= e2 ->
  PyNum.dyadic_compare m1 e1 m2 e2 = (m1 * 2 ^ (e1 - k) ?= m2 * 2 ^ (e2 - k)).
Proof.
  intros H1 H2. unfold PyNum.dyadic_compare. cbv zeta.
  set (e := Z.min e1 e2).
  assert (He : k <= e) by (unfold e; lia).
  assert (He1 : e <= e1) by (unfold e; lia).
  assert (He2 : e <= e2) by (unfold e; lia).
  replace (e1 - k) with ((e1 - e) + (e - k)) by lia.
  replace (e2 - k) with ((e2 - e) + (e - k)) by lia.
  rewrite !Z.pow_add_r by lia. rewrite !Z.mul_assoc.
  apply Zmult_compare_compat_r.
  apply Z.lt_gt, Z.pow_pos_nonneg; lia.
Qed.

Lemma dyadic_compare_refl (m e : Z) : PyNum.dyadic_compare m e m e = Eq.
Proof. unfold PyNum.dyadic_compare. apply Z.compare_refl. Qed.

Lemma dyadic_compare_antisym (m1 e1 m2 e2 : Z) :
  PyNum.dyadic_compare m2 e2 m1 e1 = CompOpp (PyNum.dyadic_compare m1 e1 m2 e2).
Proof.
  unfold PyNum.dyadic_compare. cbv zeta. rewrite (Z.min_comm e2 e1).
  apply Z.compare_antisym.
Qed.

Lemma dyadic_compare_trans (m1 e1 m2 e2 m3 e3 : Z) :
  PyNum.dyadic_compare m1 e1 m2 e2 <> Gt ->
  PyNum.dyadic_compare m2 e2 m3 e3 = Lt ->
  PyNum.dyadic_compare m1 e1 m3 e3 = Lt.
Proof.
  set (k := Z.min e1 (Z.min e2 e3)).
  rewrite (dyadic_compare_at k m1 e1 m2 e2) by (unfold k; lia).
  rewrite (dyadic_compare_at k m2 e2 m3 e3) by (unfold k; lia).
  rewrite (dyadic_compare_at k m1 e1 m3 e3) by (unfold k; lia).
  rewrite Z.compare_gt_iff, !Z.compare_lt_iff. lia.
Qed.

Lemma dyadic_compare_trans' (m1 e1 m2 e2 m3 e3 : Z) :
  PyNum.dyadic_compare m1 e1 m2 e2 = Lt ->
  PyNum.dyadic_compare m2 e2 m3 e3 <> Gt ->
  PyNum.dyadic_compare m1 e1 m3 e3 = Lt.
Proof.
  set (k := Z.min e1 (Z.min e2 e3)).
  rewrite (dyadic_compare_at k m1 e1 m2 e2) by (unfold k; lia).
  rewrite (dyadic_compare_at k m2 e2 m3 e3) by (unfold k; lia).
  rewrite (dyadic_compare_at k m1 e1 m3 e3) by (unfold k; lia).
  rewrite Z.compare_gt_iff, !Z.compare_lt_iff. lia.
Qed.

Lemma gt_irrefl (x : PyNum.num) : PyNum.gt x x = false.
Proof.
  unfold PyNum.gt, PyNum.compare.
  destruct (PyNum.xreal_of x); try reflexivity.
  now rewrite dyadic_compare_refl.
Qed.

Lemma lt_irrefl (x : PyNum.num) : PyNum.lt x x = false.
Proof.
  unfold PyNum.lt, PyNum.compare.
  destruct (PyNum.xreal_of x); try reflexivity.
  now rewrite dyadic_compare_refl.
Qed.

(** [x < y] is [y > x]. *)
Lemma lt_gt_swap (x y : PyNum.num) : PyNum.lt x y = PyNum.gt y x.
Proof.
  unfold PyNum.lt, PyNum.gt, PyNum.compare.
  destruct (PyNum.xreal_of x), (PyNum.xreal_of y); try reflexivity.
  rewrite (dyadic_compare_antisym m e m0 e0).
  destruct (PyNum.dyadic_compare m e m0 e0); reflexivity.
Qed.

(** [e < v] and [v <= v'] give [e < v']. *)
Lemma gt_le_trans (e v v' : PyNum.num) :
  PyNum.gt v e = true -> PyNum.le v v' = true -> PyNum.gt v' e = true.
Proof.
  rewrite <- !lt_gt_swap.
  unfold PyNum.lt, PyNum.le, PyNum.compare.
  destruct (PyNum.xreal_of e) as [| | |me ee],
           (PyNum.xreal_of v) as [| | |mv ev],
           (PyNum.xreal_of v') as [| | |mw ew];
    try reflexivity; try discriminate.
  intros H1 H2.
  rewrite (dyadic_compare_trans' me ee mv ev mw ew); [reflexivity | |].
  - destruct (PyNum.dyadic_compare me ee mv ev); [discriminate | reflexivity | discriminate].
  - destruct (PyNum.dyadic_compare mv ev mw ew); [discriminate | discriminate | discriminate].
Qed.

(** [e < v] and [v < s] give [e < s]. *)
Lemma gt_lt_trans (e v s : PyNum.num) :
  PyNum.gt v e = true -> PyNum.lt v s = true -> PyNum.gt s e = true.
Proof.
  rewrite <- !lt_gt_swap.
  unfold PyNum.lt, PyNum.compare.
  destruct (PyNum.xreal_of e) as [| | |me ee],
           (PyNum.xreal_of v) as [| | |mv ev],
           (PyNum.xreal_of s) as [| | |ms es];
    try reflexivity; try discriminate.
  intros H1 H2.
  rewrite (dyadic_compare_trans me ee mv ev ms es); [reflexivity | |].
  - destruct (PyNum.dyadic_compare me ee mv ev); discriminate.
  - destruct (PyNum.dyadic_compare mv ev ms es); [discriminate | reflexivity | discriminate].
Qed.

Lemma lt_not_gt (x y : PyNum.num) : PyNum.lt x y = true -> PyNum.gt x y = false.
Proof.
  unfold PyNum.lt, PyNum.gt.
  destruct (PyNum.compare x y) as [[| |]|]; intros H; try reflexivity; discriminate.
Qed.

(** ** Ranges the constructor returns *)

Lemma Check_Range_init_bounds_ordered
    (float : string -> option spec_float) (s : string) (r : Check_Range) :
  Check_Range_init float s = Return r ->
  PyNum.gt (start r) (end_ r) = false.
Proof.
  rewrite Check_Range_init_unfold. cbv zeta.
  destruct (2 <? _)%nat; [discriminate|].
  destruct (parsed_bounds float _) as [[st en]|e]; simpl; [|discriminate].
  destruct (PyNum.gt st en) eqn:G; [discriminate|].
  intros H. injection H as <-. exact G.
Qed.

(** A returned range comes from a specification with exactly one colon,
    keeps the specification without its [@], records whether the [@] was
    there, and never has [start > end]. *)
Theorem Check_Range_init_returned
    (float : string -> option spec_float) (s : string) (r : Check_Range) :
  Check_Range_init float s = Return r ->
  PyStr.count ":" s = 1%nat
  /\ PyNum.gt (start r) (end_ r) = false
  /\ range r = strip_at s
  /\ inside r = PyStr.startswith "@" s.
Proof.
  rewrite Check_Range_init_unfold. cbv zeta.
  destruct (2 <? _)%nat eqn:L; [discriminate|].
  destruct (parsed_bounds float _) as [[st en]|e] eqn:B; simpl; [|discriminate].
  destruct (PyNum.gt st en) eqn:G; [discriminate|].
  intros H. injection H as <-. simpl.
  apply parsed_bounds_two in B. rewrite split_length, count_strip_at in B.
  repeat split; [lia | exact G].
Qed.

Lemma Check_Range_init_returned_250_500 :
  PyStr.count ":" "250:500" = 1%nat
  /\ PyNum.gt (fl 250) (fl 500) = false
  /\ "250:500"%string = strip_at "250:500"
  /\ false = PyStr.startswith "@" "250:500".
Proof.
  apply (Check_Range_init_returned PyFloat.float "250:500"
           {| range := "250:500"; inside := false;
              start := fl 250; end_ := fl 500 |}).
  reflexivity.
Defined.

(** Both endpoints of a returned range are inside it: [check] raises no
    alert on [start] nor on [end]. *)
Theorem check_endpoints_inclusive
    (float : string -> option spec_float) (s : string) (r : Check_Range) :
  Check_Range_init float s = Return r ->
  check r (start r) = false /\ check r (end_ r) = false.
Proof.
  intros H. pose proof (Check_Range_init_bounds_ordered float s r H) as G.
  unfold check. rewrite lt_irrefl, gt_irrefl, G, lt_gt_swap, G.
  split; reflexivity.
Qed.

Lemma check_endpoints_inclusive_250_500 :
  let r := {| range := "250:500"; inside := false;
              start := fl 250; end_ := fl 500 |} in
  check r (fl 250) = false /\ check r (fl 500) = false.
Proof.
  apply (check_endpoints_inclusive PyFloat.float "250:500"). reflexivity.
Defined.

(** A NaN is never an alert: [check] answers false on it and
    [check_warn_crit] answers OK, for every range; and a range whose two
    bounds are NaN, which the constructor returns for ["nan:nan"], flags no
    value at all. *)
Theorem nan_never_alerts (g : globals) (r : Check_Range) :
  check r (PyNum.PFloat S754_nan) = false
  /\ check_warn_crit g r (PyNum.PFloat S754_nan) = OK g
  /\ (start r = PyNum.PFloat S754_nan -> end_ r = PyNum.PFloat S754_nan ->
      forall v, check r v = false /\ check_warn_crit g r v = OK g)
  /\ Check_Range_init PyFloat.float "nan:nan" =
       Return {| range := "nan:nan"; inside := false;
                 start := PyNum.PFloat S754_nan;
                 end_ := PyNum.PFloat S754_nan |}.
Proof.
  split; [reflexivity|]. split; [reflexivity|]. split; [|reflexivity].
  intros Hs He v. unfold check, check_warn_crit. rewrite Hs, He.
  unfold PyNum.lt, PyNum.gt, PyNum.compare. simpl.
  destruct (PyNum.xreal_of v); split; reflexivity.
Qed.

Lemma nan_never_alerts_at_1e9 :
  let r := {| range := "nan:nan"; inside := false;
              start := PyNum.PFloat S754_nan; end_ := PyNum.PFloat S754_nan |} in
  check r (fl (10 ^ 9)) = false
  /\ check_warn_crit module_globals r (fl (10 ^ 9)) = OK module_globals.
Proof.
  intros r.
  destruct (nan_never_alerts module_globals r) as [_ [_ [H _]]].
  apply H; reflexivity.
Defined.

(** A larger value never gets a milder status: when the codes are ordered
    OK <= WARNING <= CRITICAL and [v <= v'], the status of [v] is at most
    the status of [v']. *)
Theorem check_warn_crit_monotone
    (g : globals) (r : Check_Range) (v v' : PyNum.num) :
  OK g <= WARNING g -> WARNING g <= CRITICAL g ->
  PyNum.le v v' = true ->
  check_warn_crit g r v <= check_warn_crit g r v'.
Proof.
  intros H1 H2 L. unfold check_warn_crit.
  destruct (PyNum.gt v (end_ r)) eqn:Ge.
  - rewrite (gt_le_trans _ _ _ Ge L). lia.
  - destruct (PyNum.gt v (start r)) eqn:Gs.
    + rewrite (gt_le_trans _ _ _ Gs L).
      destruct (PyNum.gt v' (end_ r)); lia.
    + destruct (PyNum.gt v' (end_ r)); [lia|].
      destruct (PyNum.gt v' (start r)); lia.
Qed.

Lemma check_warn_crit_monotone_300_600 :
  let r := {| range := "250:500"; inside := false;
              start := fl 250; end_ := fl 500 |} in
  check_warn_crit module_globals r (fl 300)
  <= check_warn_crit module_globals r (fl 600).
Proof.
  intros r.
  apply (check_warn_crit_monotone module_globals r (fl 300) (fl 600));
    [simpl; lia | simpl; lia | reflexivity].
Defined.

(** The two classifiers on a returned range.  A value below [start] is
    an alert for [check] and OK for [check_warn_crit]; a value above [end]
    is an alert and CRITICAL; a value [check] does not flag is WARNING when
    above [start] and OK otherwise. *)
Theorem check_against_check_warn_crit
    (float : string -> option spec_float) (g : globals)
    (s : string) (r : Check_Range) (v : PyNum.num) :
  Check_Range_init float s = Return r ->
  (PyNum.lt v (start r) = true ->
   check r v = true /\ check_warn_crit g r v = OK g)
  /\ (PyNum.gt v (end_ r) = true ->
      check r v = true /\ check_warn_crit g r v = CRITICAL g)
  /\ (check r v = false ->
      check_warn_crit g r v =
        if PyNum.gt v (start r) then WARNING g else OK g).
Proof.
  intros H. pose proof (Check_Range_init_bounds_ordered float s r H) as G.
  unfold check, check_warn_crit. split; [|split].
  - intros L. split; [now rewrite L|].
    destruct (PyNum.gt v (end_ r)) eqn:Ge.
    + rewrite (gt_lt_trans _ _ _ Ge L) in G. discriminate.
    + now rewrite (lt_not_gt _ _ L).
  - intros Ge. rewrite Ge. split; [apply orb_true_r | reflexivity].
  - intros C. apply orb_false_elim in C as [_ Ge]. now rewrite Ge.
Qed.

Lemma check_against_check_warn_crit_at_100 :
  let r := {| range := "250:500"; inside := false;
              start := fl 250; end_ := fl 500 |} in
  check r (fl 100) = true
  /\ check_warn_crit module_globals r (fl 100) = OK module_globals.
Proof.
  intros r.
  destruct (check_against_check_warn_crit PyFloat.float module_globals
              "250:500" r (fl 100)) as [H _]; [reflexivity|].
  apply H. reflexivity.
Defined.

(** ** More on Response *)

Lemma getitem_errstat_named (st : Z) :
  0 <= st <= 3 -> exists name, getitem errstat_to_str st = Return name.
Proof.
  intros H.
  assert (C : st = 0 \/ st = 1 \/ st = 2 \/ st = 3) by lia.
  destruct C as [ -> | [ -> | [ -> | -> ] ] ]; eexists; reflexivity.
Qed.

Lemma getitem_errstat_unnamed (st : Z) :
  st < 0 \/ 3 < st -> getitem errstat_to_str st = Raise (KeyError st).
Proof.
  intros H. unfold errstat_to_str.
  cbn [getitem OK WARNING CRITICAL UNKNOWN module_globals].
  repeat match goal with
         | |- context [?a =? st] => destruct (Z.eqb_spec a st); [lia|]
         end.
  reflexivity.
Qed.

(** [exit] prints and ends the process exactly when the final status is
    one of 0, 1, 2, 3; on any other status it stops at the lookup of the
    name with [KeyError] and prints nothing. *)
Theorem Response_exit_named_or_KeyError
    (r : Response) (status' : option Z) (msg : option string) (st : Z) :
  st = match status' with Some s => s | None => status r end ->
  (0 <= st <= 3 ->
   exists out, Response_exit r status' msg = Return out /\ exit_code out = st)
  /\ (st < 0 \/ 3 < st -> Response_exit r status' msg = Raise (KeyError st)).
Proof.
  intros Hst. unfold Response_exit. rewrite <- Hst. split; intros H.
  - destruct (getitem_errstat_named st H) as [name ->]. simpl.
    eexists. split; reflexivity.
  - now rewrite (getitem_errstat_unnamed st H).
Qed.

Lemma Response_exit_named_or_KeyError_at_4 :
  Response_exit (Response_init module_globals) (Some 4) (Some "odd"%string)
  = Raise (KeyError 4).
Proof.
  apply (Response_exit_named_or_KeyError (Response_init module_globals)
           (Some 4) (Some "odd"%string) 4); [reflexivity | lia].
Defined.

Lemma set_status_keeps (r : Response) (s : Z) :
  perfdata (set_status r s) = perfdata r
  /\ details (set_status r s) = details r.
Proof. unfold set_status. destruct (s >? status r); split; reflexivity. Qed.

Lemma set_status_fold_keeps (l : list Z) (r : Response) :
  perfdata (fold_left set_status l r) = perfdata r
  /\ details (fold_left set_status l r) = details r.
Proof.
  revert r. induction l as [|s l IH]; intros r; simpl; [split; reflexivity|].
  destruct (IH (set_status r s)) as [Hp Hd].
  destruct (set_status_keeps r s) as [Hp' Hd'].
  split; congruence.
Qed.

(** A status handed to [exit] overrides everything [set_status] stored:
    the text printed and the exit code are the same whatever statuses were
    recorded before. *)
Theorem Response_exit_overrides_recorded
    (l : list Z) (r : Response) (st : Z) (msg : option string) :
  Response_exit (fold_left set_status l r) (Some st) msg
  = Response_exit r (Some st) msg.
Proof.
  unfold Response_exit, detail_lines.
  destruct (set_status_fold_keeps l r) as [Hp Hd]. rewrite Hp, Hd.
  reflexivity.
Qed.

Lemma fold_max_bounded (l : list Z) (a : Z) :
  Forall (fun s => s <= a) l -> fold_left Z.max l a = a.
Proof.
  induction 1 as [|s l Hs _ IH]; simpl; [reflexivity|].
  now replace (Z.max a s) with a by lia.
Qed.

(** Statuses recorded into a fresh response never show: whatever codes up
    to 3 are recorded, [exit(None, msg)] reports UNKNOWN and ends with
    code 3. *)
Theorem Response_exit_none_fresh (l : list Z) (msg : option string) :
  Forall (fun s => s <= 3) l ->
  Response_exit (fold_left set_status l (Response_init module_globals))
    None msg
  = Return {| stdout := print ("UNKNOWN" ++ opt_part " " msg);
              exit_code := 3 |}.
Proof.
  intros H. unfold Response_exit, detail_lines.
  destruct (set_status_fold_keeps l (Response_init module_globals)) as [Hp Hd].
  rewrite Hp, Hd, set_status_fold. change (status (Response_init module_globals)) with 3.
  rewrite (fold_max_bounded l 3 H). simpl.
  destruct msg as [m|]; simpl; [reflexivity|].
  reflexivity.
Qed.

Lemma Response_exit_none_fresh_example :
  Response_exit
    (fold_left set_status [0; 1; 2] (Response_init module_globals))
    None (Some "peers"%string)
  = Return {| stdout := print "UNKNOWN peers"; exit_code := 3 |}.
Proof.
  apply (Response_exit_none_fresh [0; 1; 2] (Some "peers"%string)).
  repeat constructor; lia.
Defined.

Lemma set_status_swap (r : Response) (a b : Z) :
  set_status (set_status r a) b = set_status (set_status r b) a.
Proof.
  destruct r as [st p d]. unfold set_status. simpl.
  destruct (Z.gtb_spec a st), (Z.gtb_spec b st); simpl;
    repeat match goal with
           | |- context [?x >? ?y] => destruct (Z.gtb_spec x y); simpl
           end;
    try reflexivity; try lia; f_equal; lia.
Qed.

(** The order of the [set_status] calls does not matter: two sequences
    with the same statuses, in any order, leave the same response. *)
Theorem set_status_order_irrelevant (l l' : list Z) (r : Response) :
  Permutation l l' ->
  fold_left set_status l r = fold_left set_status l' r.
Proof.
  intros P. revert r.
  induction P as [|x l l' _ IH|x y l|l l' l'' _ IH1 _ IH2]; intros r; simpl.
  - reflexivity.
  - apply IH.
  - now rewrite set_status_swap.
  - now rewrite IH1.
Qed.

Lemma set_status_order_irrelevant_example :
  fold_left set_status [2; 0; 1] {| status := 0; perfdata := None; details := None |}
  = fold_left set_status [0; 1; 2] {| status := 0; perfdata := None; details := None |}.
Proof.
  apply set_status_order_irrelevant.
  apply Permutation_sym.
  apply (perm_trans (l' := [0; 2; 1])).
  - apply perm_skip, perm_swap.
  - apply perm_swap.
Defined.

(** ** External_Command.__iter__ *)

Lemma split_pieces_no_sep (sep : ascii) (s p : string) :
  In p (PyStr.split sep s) -> PyStr.count sep p = O.
Proof.
  revert p. induction s as [|c r IH]; intros p; simpl.
  - intros [<-|[]]. reflexivity.
  - destruct (Ascii.eqb c sep) eqn:E.
    + intros [<-|H]; [reflexivity | now apply IH].
    + destruct (PyStr.split sep r) as [|h t] eqn:S.
      * intros [<-|[]]. simpl. now rewrite E.
      * intros [<-|H].
        -- simpl. rewrite E. apply IH. now left.
        -- apply IH. now right.
Qed.

Lemma rstrip_count_zero (c : ascii) (s : string) :
  PyStr.count c s = O -> PyStr.count c (rstrip s) = O.
Proof.
  induction s as [|x r IH]; simpl; [reflexivity|].
  destruct (Ascii.eqb x c) eqn:E; simpl; [discriminate|].
  intros H. destruct (PyStr.is_empty (rstrip r) && isspace x); [reflexivity|].
  simpl. rewrite E. now apply IH.
Qed.

Lemma rstrip_idempotent (s : string) : rstrip (rstrip s) = rstrip s.
Proof.
  induction s as [|x r IH]; simpl; [reflexivity|].
  destruct (PyStr.is_empty (rstrip r) && isspace x) eqn:E; [reflexivity|].
  simpl. now rewrite IH, E.
Qed.

Lemma rstrip_last (s pre : string) (c : ascii) :
  rstrip s = (pre ++ String c EmptyString)%string -> isspace c = false.
Proof.
  revert pre. induction s as [|x r IH]; intros pre; simpl.
  - destruct pre; discriminate.
  - destruct (PyStr.is_empty (rstrip r) && isspace x) eqn:E.
    + destruct pre; discriminate.
    + destruct pre as [|y pre]; simpl; intros H; injection H as -> H.
      * rewrite H in E. exact E.
      * now apply (IH pre).
Qed.

Lemma External_Command_iter_in (s line : string) :
  In line (External_Command_iter s) <->
  line <> EmptyString
  /\ exists p, In p (PyStr.split "010" s) /\ rstrip p = line.
Proof.
  unfold External_Command_iter. rewrite filter_In, in_map_iff.
  split.
  - intros [[p [<- Hp]] Hne]. split.
    + destruct (rstrip p); [discriminate|discriminate].
    + now exists p.
  - intros [Hne [p [Hp <-]]]. split; [now exists p|].
    destruct (rstrip p); [congruence | reflexivity].
Qed.

(** Every line the generator yields is non-empty, holds no line feed and
    does not end in whitespace: [line[0]] is always there, and stripping
    the line again changes nothing. *)
Theorem External_Command_iter_clean (s line : string) :
  In line (External_Command_iter s) ->
  line <> EmptyString
  /\ PyStr.count "010" line = O
  /\ rstrip line = line
  /\ (forall pre c, line = (pre ++ String c EmptyString)%string ->
                    isspace c = false).
Proof.
  intros H. apply External_Command_iter_in in H as [Hne [p [Hp <-]]].
  split; [exact Hne|].
  split; [apply rstrip_count_zero, (split_pieces_no_sep _ s), Hp|].
  split; [apply rstrip_idempotent|].
  intros pre c E. exact (rstrip_last p pre c E).
Qed.

Lemma External_Command_iter_clean_example :
  "*ntp1 .GPS."%string <> EmptyString
  /\ PyStr.count "010" "*ntp1 .GPS." = O
  /\ rstrip "*ntp1 .GPS." = "*ntp1 .GPS."%string
  /\ (forall pre c, "*ntp1 .GPS."%string = (pre ++ String c EmptyString)%string ->
                    isspace c = false).
Proof.
  apply (External_Command_iter_clean
           ("=====" ++ String "010" ("*ntp1 .GPS.  " ++ String "010" EmptyString))).
  simpl. right. left. reflexivity.
Defined.

Lemma split_join_lines (ls : list string) :
  ls <> [] ->
  Forall (fun l => PyStr.count "010" l = O) ls ->
  PyStr.split "010" (join_lines ls) = ls.
Proof.
  induction ls as [|x ls IH]; [congruence|].
  intros _ F. inversion F as [|? ? Hx Hl]; subst.
  destruct ls as [|y ls].
  - simpl. now apply split_no_sep.
  - change (join_lines (x :: y :: ls))
      with (x ++ String "010" (join_lines (y :: ls)))%string.
    rewrite (split_app_sep _ _ _ Hx). f_equal. apply IH; [discriminate | exact Hl].
Qed.

(** Reading back what was yielded: lines that are non-empty, free of line
    feeds and of trailing whitespace, joined by line feeds, are yielded
    again as they are; so iterating over the joined result of an iteration
    yields the same lines. *)
Theorem External_Command_iter_join (ls : list string) :
  Forall clean_line ls ->
  External_Command_iter (join_lines ls) = ls
  /\ forall s, ls = External_Command_iter s ->
               External_Command_iter (join_lines (External_Command_iter s))
               = External_Command_iter s.
Proof.
  intros F. assert (E : External_Command_iter (join_lines ls) = ls).
  { unfold External_Command_iter. destruct ls as [|x ls]; [reflexivity|].
    rewrite split_join_lines; [|discriminate|].
    - induction F as [|l ls' [Hne [_ Hr]] _ IH]; [reflexivity|].
      simpl. rewrite Hr. destruct l; [congruence|]. simpl. now rewrite IH.
    - eapply Forall_impl; [|exact F]. now intros l [_ [H _]]. }
  split; [exact E|]. intros s <-. exact E.
Qed.

Lemma External_Command_iter_join_example :
  External_Command_iter
    (join_lines ["remote  refid"; "*ntp1 .GPS."]%string)
  = ["remote  refid"; "*ntp1 .GPS."]%string.
Proof.
  apply (External_Command_iter_join ["remote  refid"; "*ntp1 .GPS."]%string).
  repeat constructor; discriminate.
Defined.

Lemma blank_pieces (s : string) :
  blank s = true ->
  Forall (fun p => rstrip p = EmptyString) (PyStr.split "010" s).
Proof.
  induction s as [|c r IH]; simpl.
  - intros _. now constructor.
  - intros H. apply andb_true_iff in H as [Hc Hr]. specialize (IH Hr).
    destruct (Ascii.eqb c "010"); [now constructor|].
    destruct (PyStr.split "010" r) as [|h t] eqn:S.
    + now destruct (split_not_nil "010" r).
    + inversion IH as [|? ? Hh Ht]; subst.
      constructor; [|exact Ht]. simpl. now rewrite Hh, Hc.
Qed.

Lemma not_blank_piece (s : string) :
  blank s = false ->
  exists p, In p (PyStr.split "010" s) /\ rstrip p <> EmptyString.
Proof.
  induction s as [|c r IH]; simpl; [discriminate|].
  intros H. destruct (Ascii.eqb c "010") eqn:E.
  - apply Ascii.eqb_eq in E. subst c. simpl in H.
    destruct (IH H) as [p [Hp Hn]]. exists p. split; [now right | exact Hn].
  - destruct (PyStr.split "010" r) as [|h t] eqn:S.
    + now destruct (split_not_nil "010" r).
    + destruct (isspace c) eqn:Hc; simpl in H.
      * destruct (IH H) as [p [[<-|Hp] Hn]].
        -- exists (String c h). split; [now left|]. simpl.
           destruct (rstrip h); [congruence | discriminate].
        -- exists p. split; [now right | exact Hn].
      * exists (String c h). split; [now left|]. simpl.
        rewrite Hc, andb_false_r. discriminate.
Qed.

(** The generator yields nothing exactly when the captured output is
    blank: empty, or whitespace and line feeds only. *)
Theorem External_Command_iter_nil_iff_blank (s : string) :
  External_Command_iter s = [] <-> blank s = true.
Proof.
  split.
  - intros H. destruct (blank s) eqn:B; [reflexivity|].
    destruct (not_blank_piece s B) as [p [Hp Hn]].
    assert (I : In (rstrip p) (External_Command_iter s)).
    { apply External_Command_iter_in. split; [exact Hn | now exists p]. }
    rewrite H in I. destruct I.
  - intros B. unfold External_Command_iter.
    pose proof (blank_pieces s B) as F.
    induction F as [|p l Hp _ IH]; [reflexivity|].
    simpl. now rewrite Hp.
Qed.

(** ** Plugin_Check.parse *)

Lemma getitem_str_errstat (k : string) (v : Z) :
  getitem_str str_to_errstat k = Some v ->
  0 <= v <= 3
  /\ In k ["ok"; "warning"; "critical"; "unknown"]%string.
Proof.
  unfold str_to_errstat.
  cbn [getitem_str OK WARNING CRITICAL UNKNOWN module_globals].
  repeat match goal with
         | |- context [String.eqb ?a k] =>
             destruct (String.eqb_spec a k) as [<-|_]
         end;
    intros H; try discriminate; injection H as <-;
    (split; [lia | simpl; tauto]).
Qed.

Lemma Plugin_Check_parse_some (g g' : globals) (args : Namespace) :
  Plugin_Check_parse g args = Some g' ->
  OK g' = OK g /\ (codes_named g -> codes_named g').
Proof.
  unfold Plugin_Check_parse, codes_named.
  destruct (unknown_as args) as [ku|];
    [destruct (getitem_str str_to_errstat ku) as [vu|] eqn:Eu;
     [apply getitem_str_errstat in Eu as [Eu _]|discriminate]|];
  (destruct (warning_as args) as [kw|];
    [destruct (getitem_str str_to_errstat kw) as [vw|] eqn:Ew;
     [apply getitem_str_errstat in Ew as [Ew _]|discriminate]|]);
  (destruct (critical_as args) as [kc|];
    [destruct (getitem_str str_to_errstat kc) as [vc|] eqn:Ec;
     [apply getitem_str_errstat in Ec as [Ec _]|discriminate]|]);
  simpl; intros H; injection H as <-; simpl;
  (split; [reflexivity | intros [? [? [? ?]]]; repeat split; lia]).
Qed.

Lemma getitem_str_errstat_word (k : string) :
  In k ["ok"; "warning"; "critical"; "unknown"]%string ->
  exists v, getitem_str str_to_errstat k = Some v.
Proof.
  intros [<-|[<-|[<-|[<-|[]]]]]; eexists; reflexivity.
Qed.

(** [parse] never rebinds OK and keeps every code within 0..3; with the
    default arguments it leaves the import-time bindings as they are; and
    on every namespace [parse_args] returns, where each of the three
    arguments is one of ok, warning, critical, unknown, it raises nothing
    and rebinds each given name to the import-time code of its word,
    leaving the others as they were. *)
Theorem Plugin_Check_parse_codes (g : globals) (args : Namespace) :
  (forall g', Plugin_Check_parse g args = Some g' ->
              OK g' = OK g /\ (codes_named g -> codes_named g'))
  /\ Plugin_Check_parse module_globals default_args = Some module_globals
  /\ ((forall k, unknown_as args = Some k \/ warning_as args = Some k
                  \/ critical_as args = Some k ->
                  In k ["ok"; "warning"; "critical"; "unknown"]%string) ->
      exists g',
        Plugin_Check_parse g args = Some g'
        /\ match unknown_as args with
           | Some k => getitem_str str_to_errstat k = Some (UNKNOWN g')
           | None => UNKNOWN g' = UNKNOWN g
           end
        /\ match warning_as args with
           | Some k => getitem_str str_to_errstat k = Some (WARNING g')
           | None => WARNING g' = WARNING g
           end
        /\ match critical_as args with
           | Some k => getitem_str str_to_errstat k = Some (CRITICAL g')
           | None => CRITICAL g' = CRITICAL g
           end).
Proof.
  split; [|split; [reflexivity|]].
  - intros g'. apply Plugin_Check_parse_some.
  - intros W. unfold Plugin_Check_parse.
    destruct (unknown_as args) as [ku|];
      [destruct (getitem_str_errstat_word ku (W ku (or_introl eq_refl)))
         as [vu Eu]; rewrite Eu|];
    (destruct (warning_as args) as [kw|];
      [destruct (getitem_str_errstat_word kw
                   (W kw (or_intror (or_introl eq_refl)))) as [vw Ew];
       rewrite Ew|]);
    (destruct (critical_as args) as [kc|];
      [destruct (getitem_str_errstat_word kc
                   (W kc (or_intror (or_intror eq_refl)))) as [vc Ec];
       rewrite Ec|]);
    cbn [option_map]; eexists; (split; [reflexivity|]);
    cbn [OK WARNING CRITICAL UNKNOWN]; repeat split; assumption.
Qed.

Lemma Plugin_Check_parse_codes_example :
  (OK {| OK := 0; WARNING := 1; CRITICAL := 1; UNKNOWN := 3 |} = OK module_globals
   /\ (codes_named module_globals ->
       codes_named {| OK := 0; WARNING := 1; CRITICAL := 1; UNKNOWN := 3 |}))
  /\ exists g',
       Plugin_Check_parse module_globals
         {| unknown_as := None; warning_as := Some "warning"%string;
            critical_as := Some "warning"%string |} = Some g'
       /\ UNKNOWN g' = UNKNOWN module_globals
       /\ getitem_str str_to_errstat "warning" = Some (WARNING g')
       /\ getitem_str str_to_errstat "warning" = Some (CRITICAL g').
Proof.
  destruct (Plugin_Check_parse_codes module_globals
              {| unknown_as := None; warning_as := Some "warning"%string;
                 critical_as := Some "warning"%string |}) as [H1 [_ H3]].
  split.
  - apply H1. reflexivity.
  - apply H3. intros k [H|[H|H]];
      [discriminate H | injection H as <- | injection H as <-];
      simpl; tauto.
Defined.

(** After [parse], whatever the options, every status [check_warn_crit]
    returns has a name: [exit] with it prints and ends the process with
    that code, and never stops at the lookup. *)
Theorem check_warn_crit_exit_after_parse
    (g g' : globals) (args : Namespace) (response : Response)
    (r : Check_Range) (v : PyNum.num) (msg : option string) :
  codes_named g ->
  Plugin_Check_parse g args = Some g' ->
  exists out,
    Response_exit response (Some (check_warn_crit g' r v)) msg = Return out
    /\ exit_code out = check_warn_crit g' r v.
Proof.
  intros N P.
  destruct (Plugin_Check_parse_some g g' args P) as [_ N']. specialize (N' N).
  destruct N' as [Ho [Hw [Hc _]]].
  assert (B : 0 <= check_warn_crit g' r v <= 3).
  { unfold check_warn_crit.
    destruct (PyNum.gt v (end_ r)); [exact Hc|].
    destruct (PyNum.gt v (start r)); [exact Hw | exact Ho]. }
  unfold Response_exit.
  destruct (getitem_errstat_named _ B) as [name ->]. simpl.
  eexists. split; reflexivity.
Qed.

Lemma check_warn_crit_exit_after_parse_example :
  exists out,
    Response_exit (Response_init module_globals)
      (Some (check_warn_crit
               {| OK := 0; WARNING := 1; CRITICAL := 1; UNKNOWN := 3 |}
               {| range := "250:500"; inside := false;
                  start := fl 250; end_ := fl 500 |} (fl 600)))
      (Some "jitter"%string) = Return out
    /\ exit_code out =
         check_warn_crit
           {| OK := 0; WARNING := 1; CRITICAL := 1; UNKNOWN := 3 |}
           {| range := "250:500"; inside := false;
              start := fl 250; end_ := fl 500 |} (fl 600).
Proof.
  apply (check_warn_crit_exit_after_parse module_globals
           {| OK := 0; WARNING := 1; CRITICAL := 1; UNKNOWN := 3 |}
           {| unknown_as := None; warning_as := Some "warning"%string;
              critical_as := Some "warning"%string |}).
  - unfold codes_named. simpl. lia.
  - reflexivity.
Defined.

(** ** check_file_status *)

(** [c <= w] and [w < a] give [c < a]. *)
Lemma le_gt_trans (c w a : PyNum.num) :
  PyNum.le c w = true -> PyNum.gt a w = true -> PyNum.gt a c = true.
Proof.
  rewrite <- !lt_gt_swap.
  unfold PyNum.lt, PyNum.le, PyNum.compare.
  destruct (PyNum.xreal_of c) as [| | |mc ec],
           (PyNum.xreal_of w) as [| | |mw ew],
           (PyNum.xreal_of a) as [| | |ma ea];
    try reflexivity; try discriminate.
  intros H1 H2.
  rewrite (dyadic_compare_trans mc ec mw ew ma ea); [reflexivity | |].
  - destruct (PyNum.dyadic_compare mc ec mw ew); discriminate.
  - destruct (PyNum.dyadic_compare mw ew ma ea); [discriminate | reflexivity | discriminate].
Qed.

(** When the warning age is not below the critical age, as with the
    defaults of 48 and 36 hours, and the modification time can be read, a
    file older than the warning age is older than the critical age too: the
    check leaves through the CRITICAL branch, with the current CRITICAL
    code and the critical limit in the message, and the WARNING branch is
    not reached. *)
Theorem Check_File_Status_warning_age_is_critical
    (fmt_2f : PyNum.num -> string) (g : globals) (response : Response)
    (args : file_args) (probe : file_probe) :
  path_exists probe = true -> getmtime_ok probe = true ->
  PyNum.le (age_critical args) (age_warning args) = true ->
  PyNum.gt (age_hours probe) (age_warning args) = true ->
  Check_File_Status_check fmt_2f g response args probe
  = Response_exit response (Some (CRITICAL g))
      (Some ("File " ++ file args ++ " last modified "
               ++ fmt_2f (age_hours probe) ++ " hours ago, older than limit "
               ++ fmt_2f (age_critical args) ++ " hours")%string).
Proof.
  intros He Hm L Gw. unfold Check_File_Status_check.
  now rewrite He, Hm, (le_gt_trans _ _ _ L Gw).
Qed.

Lemma Check_File_Status_warning_age_is_critical_defaults :
  Check_File_Status_check
    (fun x => if PyNum.gt x (fl 40) then "50.00"%string else "36.00"%string)
    module_globals (Response_init module_globals)
    {| file := "/tmp/status"; age_warning := DEFAULT_AGE_WARNING;
       age_critical := DEFAULT_AGE_CRITICAL |}
    {| path_exists := true; getmtime_ok := true; age_hours := fl 50;
       open_ok := true; readlines := [] |}
  = Response_exit (Response_init module_globals) (Some 2)
      (Some ("File /tmp/status last modified 50.00 hours ago, "
               ++ "older than limit 36.00 hours")%string).
Proof.
  apply (Check_File_Status_warning_age_is_critical
           (fun x => if PyNum.gt x (fl 40) then "50.00"%string
                     else "36.00"%string)
           module_globals);
    reflexivity.
Defined.

Lemma scan_line_some (g : globals) (c : Z) (ls : list string) :
  fold_left (scan_line g) ls (Some c) = Some c.
Proof. induction ls as [|l ls IH]; simpl; [reflexivity | exact IH]. Qed.

(** The status word is taken from the first line only, read without its
    trailing whitespace and in lower case: a line beginning with ok,
    warning, critical or unknown gives 0, 1, 2 or 3, any other first line
    gives the current UNKNOWN, and later lines change nothing. *)
Theorem scan_lines_first_line (g : globals) (l : string) (ls : list string) :
  let tmp := str_lower (rstrip l) in
  scan_lines g (l :: ls) = scan_lines g [l]
  /\ (String.prefix "ok" tmp = true -> scan_lines g (l :: ls) = Some 0)
  /\ (String.prefix "warning" tmp = true -> scan_lines g (l :: ls) = Some 1)
  /\ (String.prefix "critical" tmp = true -> scan_lines g (l :: ls) = Some 2)
  /\ (String.prefix "unknown" tmp = true -> scan_lines g (l :: ls) = Some 3)
  /\ (String.prefix "ok" tmp = false -> String.prefix "warning" tmp = false ->
      String.prefix "critical" tmp = false ->
      String.prefix "unknown" tmp = false ->
      scan_lines g (l :: ls) = Some (UNKNOWN g)).
Proof.
  intros tmp.
  assert (S : exists c, scan_line g None l = Some c).
  { unfold scan_line.
    destruct (fold_left _ str_to_errstat None); eauto. }
  assert (F : scan_lines g (l :: ls) = scan_line g None l).
  { unfold scan_lines. cbn [fold_left]. destruct S as [c ->].
    apply scan_line_some. }
  split; [now rewrite F|]. rewrite F. clear F S.
  unfold scan_line. fold tmp. unfold str_to_errstat.
  cbn [fold_left fst snd OK WARNING CRITICAL UNKNOWN module_globals].
  destruct tmp as [|c t]; cbn [String.prefix].
  - repeat split; discriminate.
  - split_ascii_dec; repeat split; intros;
      repeat match goal with
             | H : ?x = true |- context [?x] => rewrite H
             | H : ?x = false |- context [?x] => rewrite H
             end; try reflexivity; try discriminate.
Qed.

Lemma scan_lines_first_line_example :
  scan_lines module_globals ["CRITICAL - disk full"; "OK"]%string = Some 2.
Proof.
  pose proof (scan_lines_first_line module_globals
                "CRITICAL - disk full"%string ["OK"%string]) as H.
  cbv zeta in H. destruct H as [_ [_ [_ [H _]]]].
  apply H. reflexivity.
Defined.

(** A file that exists, can be read and is not older than either limit
    makes the check exit with OK, whatever the file says: the status word
    found in it is not used. *)
Theorem Check_File_Status_fresh_file
    (fmt_2f : PyNum.num -> string) (g : globals) (response : Response)
    (args : file_args) (probe : file_probe) :
  path_exists probe = true -> getmtime_ok probe = true ->
  open_ok probe = true ->
  PyNum.gt (age_hours probe) (age_critical args) = false ->
  PyNum.gt (age_hours probe) (age_warning args) = false ->
  Check_File_Status_check fmt_2f g response args probe
  = Response_exit response (Some (OK g))
      (Some ("File " ++ file args ++ " last modified "
               ++ fmt_2f (age_hours probe) ++ " hours ago")%string).
Proof.
  intros He Hm Ho Gc Gw. unfold Check_File_Status_check.
  now rewrite He, Hm, Ho, Gc, Gw.
Qed.

Lemma Check_File_Status_fresh_file_critical_word :
  Check_File_Status_check (fun _ => "1.50"%string) module_globals
    (Response_init module_globals)
    {| file := "/tmp/status"; age_warning := DEFAULT_AGE_WARNING;
       age_critical := DEFAULT_AGE_CRITICAL |}
    {| path_exists := true; getmtime_ok := true; age_hours := fl 1;
       open_ok := true; readlines := ["CRITICAL - disk full"%string] |}
  = Response_exit (Response_init module_globals) (Some 0)
      (Some "File /tmp/status last modified 1.50 hours ago"%string).
Proof.
  apply (Check_File_Status_fresh_file (fun _ => "1.50"%string) module_globals);
    reflexivity.
Defined.

(** ** check_zonemaster *)

Lemma zonemaster_step (acc : Z) (l : string) :
  0 <= acc <= 2 ->
  let a' := match getitem_str level_map l with
            | Some tmp => if tmp >? acc then tmp else acc
            | None => acc
            end in
  0 <= a' <= 2
  /\ (a' = 2 <-> acc = 2 \/ "ERROR"%string = l)
  /\ (a' = 0 <-> acc = 0 /\ "ERROR"%string <> l /\ "WARNING"%string <> l).
Proof.
  intros Hacc. unfold level_map. cbn [getitem_str].
  destruct (String.eqb_spec "NOTICE" l) as [<-|N];
    [|destruct (String.eqb_spec "WARNING" l) as [<-|W];
      [|destruct (String.eqb_spec "ERROR" l) as [<-|E]]];
    cbv zeta;
    repeat match goal with
           | |- context [?x >? ?y] => destruct (Z.gtb_spec x y)
           end;
    repeat split; intros; try lia; try congruence; try tauto;
    try (intuition (try lia; try congruence; try discriminate)).
Qed.

Lemma zonemaster_fold (levels : list string) (acc : Z) :
  0 <= acc <= 2 ->
  let rc := fold_left
              (fun return_code level =>
                 match getitem_str level_map level with
                 | Some tmp => if tmp >? return_code then tmp else return_code
                 | None => return_code
                 end) levels acc in
  0 <= rc <= 2
  /\ (rc = 2 <-> acc = 2 \/ In "ERROR"%string levels)
  /\ (rc = 0 <-> acc = 0 /\ ~ In "ERROR"%string levels
                 /\ ~ In "WARNING"%string levels).
Proof.
  revert acc. induction levels as [|l levels IH]; intros acc Hacc.
  - simpl. repeat split; try lia; tauto.
  - cbv zeta. cbn [fold_left].
    destruct (zonemaster_step acc l Hacc) as [B [S2 S0]]. cbv zeta in B, S2, S0.
    destruct (IH _ B) as [B' [E2 E0]]. cbv zeta in B', E2, E0.
    split; [exact B'|]. split.
    + rewrite E2, S2. simpl. intuition congruence.
    + rewrite E0, S0. simpl. intuition congruence.
Qed.

(** The code sent for a zone is 0, 1 or 2, never UNKNOWN: it is 2 exactly
    when some entry has level ERROR, and 0 exactly when none has level
    ERROR or WARNING; entries of any other level, CRITICAL among them, do
    not count. *)
Theorem zonemaster_return_code_levels (levels : list string) :
  0 <= zonemaster_return_code levels <= 2
  /\ (zonemaster_return_code levels = 2 <-> In "ERROR"%string levels)
  /\ (zonemaster_return_code levels = 0 <->
      ~ In "ERROR"%string levels /\ ~ In "WARNING"%string levels).
Proof.
  unfold zonemaster_return_code.
  destruct (zonemaster_fold levels 0) as [B [E2 E0]]; [lia|].
  cbv zeta in B, E2, E0. split; [exact B|]. split.
  - rewrite E2. intuition lia.
  - rewrite E0. intuition.
Qed.

(** ** check_becs_dhcp_scopes *)

(** Fewer free addresses never give a milder code, when the codes are
    ordered OK <= WARNING <= CRITICAL.  When the warning limit is not above
    the critical limit the WARNING branch is never taken: the code is the
    current CRITICAL below the critical limit and OK from it on, so it
    differs from WARNING whenever WARNING is bound to a code of its own. *)
Theorem dhcp_return_code_antitone
    (g : globals) (free free' free_critical free_warning : Z) :
  (OK g <= WARNING g -> WARNING g <= CRITICAL g -> free <= free' ->
   dhcp_return_code g free' free_critical free_warning
   <= dhcp_return_code g free free_critical free_warning)
  /\ (free_warning <= free_critical ->
      dhcp_return_code g free free_critical free_warning
      = (if free <? free_critical then CRITICAL g else OK g)
      /\ (WARNING g <> CRITICAL g -> WARNING g <> OK g ->
          dhcp_return_code g free free_critical free_warning <> WARNING g)).
Proof.
  unfold dhcp_return_code. split.
  - intros H1 H2 L.
    destruct (Z.ltb_spec free' free_critical), (Z.ltb_spec free free_critical),
             (Z.ltb_spec free' free_warning), (Z.ltb_spec free free_warning); lia.
  - intros L.
    destruct (Z.ltb_spec free free_critical).
    + split; [reflexivity | congruence].
    + destruct (Z.ltb_spec free free_warning); [lia|].
      split; [reflexivity | congruence].
Qed.

Lemma dhcp_return_code_antitone_example :
  dhcp_return_code module_globals 50 10 20
  <= dhcp_return_code module_globals 15 10 20
  /\ dhcp_return_code module_globals 5 10 10 = 2
  /\ dhcp_return_code module_globals 5 10 10 <> WARNING module_globals.
Proof.
  split; [|split].
  - apply (dhcp_return_code_antitone module_globals 15 50 10 20); simpl; lia.
  - destruct (dhcp_return_code_antitone module_globals 5 5 10 10) as [_ H].
    apply H. lia.
  - destruct (dhcp_return_code_antitone module_globals 5 5 10 10) as [_ H].
    apply H; [lia | discriminate | discriminate].
Defined.

(** ** More on Check_Range *)

(** The [@] prefix is inert beyond its flag: it does not change whether
    the constructor fails, nor the exception, nor the bounds, nor what
    [check] and [check_warn_crit] answer on the range. *)
Theorem Check_Range_at_prefix_inert
    (float : string -> option spec_float) (s : string) :
  PyStr.startswith "@" s = false ->
  match Check_Range_init float s, Check_Range_init float (String "@" s) with
  | Return r, Return r' =>
      r' = with_inside true r
      /\ (forall v, check r' v = check r v)
      /\ (forall g v, check_warn_crit g r' v = check_warn_crit g r v)
  | Raise e, Raise e' => e = e'
  | _, _ => False
  end.
Proof.
  intros H. rewrite (Check_Range_init_at float s H).
  destruct (Check_Range_init float s) as [r|e]; simpl; [|reflexivity].
  repeat split.
Qed.

Lemma Check_Range_at_prefix_inert_example :
  match Check_Range_init PyFloat.float "10:5",
        Check_Range_init PyFloat.float "@10:5" with
  | Return r, Return r' =>
      r' = with_inside true r
      /\ (forall v, check r' v = check r v)
      /\ (forall g v, check_warn_crit g r' v = check_warn_crit g r v)
  | Raise e, Raise e' => e = e'
  | _, _ => False
  end.
Proof.
  apply (Check_Range_at_prefix_inert PyFloat.float "10:5"). reflexivity.
Defined.

(** The open forms.  A returned range for ["A:"] has the int [sys.maxsize]
    as its upper bound, so positive infinity is an alert on it; a returned
    range for [":B"] has the int 0 as its lower bound, so every negative
    int is an alert on it. *)
Theorem Check_Range_init_open_bounds
    (float : string -> option spec_float) (r : Check_Range) :
  (forall a, Check_Range_init float (a ++ ":") = Return r ->
             end_ r = PyNum.PInt sys_maxsize
             /\ check r PyNum.pos_inf = true)
  /\ (forall b, Check_Range_init float (String ":" b) = Return r ->
                start r = PyNum.PInt 0
                /\ forall n, n < 0 -> check r (PyNum.PInt n) = true).
Proof.
  split.
  - intros a H. pose proof (Check_Range_init_open_end float a r H) as E.
    split; [exact E|]. unfold check. rewrite E. apply orb_true_r.
  - intros b H. pose proof (Check_Range_init_open_start float b r H) as E.
    split; [exact E|]. intros n Hn. unfold check. rewrite E, lt_int.
    destruct (Z.ltb_spec n 0); [reflexivity | lia].
Qed.

Lemma Check_Range_init_open_bounds_examples :
  (end_ {| range := "10:"; inside := false;
           start := fl 10; end_ := PyNum.PInt sys_maxsize |}
   = PyNum.PInt sys_maxsize
   /\ check {| range := "10:"; inside := false;
               start := fl 10; end_ := PyNum.PInt sys_maxsize |}
            PyNum.pos_inf = true)
  /\ check {| range := ":5"; inside := false;
              start := PyNum.PInt 0; end_ := fl 5 |} (PyNum.PInt (-1)) = true.
Proof.
  split.
  - apply (Check_Range_init_open_bounds PyFloat.float
             {| range := "10:"; inside := false;
                start := fl 10; end_ := PyNum.PInt sys_maxsize |}
          ) with (a := "10"%string).
    reflexivity.
  - destruct (Check_Range_init_open_bounds PyFloat.float
                {| range := ":5"; inside := false;
                   start := PyNum.PInt 0; end_ := fl 5 |}) as [_ H].
    destruct (H "5"%string) as [_ H']; [reflexivity|].
    apply H'. lia.
Defined.

(** With exactly one colon the constructor either returns a range or
    raises [ValueError]; no other exception comes out of it. *)
Theorem Check_Range_init_one_colon
    (float : string -> option spec_float) (s : string) :
  PyStr.count ":" s = 1%nat ->
  (exists r, Check_Range_init float s = Return r)
  \/ (exists m, Check_Range_init float s = Raise (ValueError m)).
Proof.
  intros C. rewrite Check_Range_init_unfold. cbv zeta.
  pose proof (split_length ":" (strip_at s)) as L.
  rewrite count_strip_at, C in L.
  destruct (PyStr.split ":" (strip_at s)) as [|a [|b [|c t]]];
    try discriminate L.
  cbn [List.length Nat.ltb Nat.leb]. rewrite parsed_bounds_pair.
  unfold float_call.
  destruct (negb (PyStr.is_empty a));
    [destruct (float a); [|right; eexists; reflexivity]|];
    (destruct (negb (PyStr.is_empty b));
     [destruct (float b); [|right; eexists; reflexivity]|]);
    cbn [bind fst snd];
    match goal with
    | |- context [PyNum.gt ?x ?y] => destruct (PyNum.gt x y)
    end;
    (left; eexists; reflexivity) || (right; eexists; reflexivity).
Qed.

Lemma Check_Range_init_one_colon_example :
  (exists r, Check_Range_init PyFloat.float "a:3" = Return r)
  \/ (exists m, Check_Range_init PyFloat.float "a:3" = Raise (ValueError m)).
Proof.
  apply (Check_Range_init_one_colon PyFloat.float "a:3"). reflexivity.
Defined.

Lemma le_negb_gt (x y : PyNum.num) :
  PyNum.xreal_of x <> PyNum.XNaN -> PyNum.xreal_of y <> PyNum.XNaN ->
  PyNum.le x y = negb (PyNum.gt x y).
Proof.
  unfold PyNum.le, PyNum.gt, PyNum.compare.
  destruct (PyNum.xreal_of x), (PyNum.xreal_of y); intros Hx Hy;
    try congruence; try reflexivity.
  destruct (PyNum.dyadic_compare m e m0 e0); reflexivity.
Qed.

(** Away from NaN, [check] raises no alert exactly on the closed interval:
    [check] is false if and only if [start <= value] and [value <= end]. *)
Theorem check_closed_interval (r : Check_Range) (v : PyNum.num) :
  PyNum.xreal_of v <> PyNum.XNaN ->
  PyNum.xreal_of (start r) <> PyNum.XNaN ->
  PyNum.xreal_of (end_ r) <> PyNum.XNaN ->
  (check r v = false <->
   PyNum.le (start r) v = true /\ PyNum.le v (end_ r) = true).
Proof.
  intros Hv Hs He. unfold check.
  rewrite (le_negb_gt _ _ Hs Hv), (le_negb_gt _ _ Hv He), lt_gt_swap.
  destruct (PyNum.gt (start r) v), (PyNum.gt v (end_ r)); simpl;
    intuition discriminate.
Qed.

Lemma check_closed_interval_at_300 :
  check {| range := "250:500"; inside := false;
           start := fl 250; end_ := fl 500 |} (fl 300) = false <->
  PyNum.le (fl 250) (fl 300) = true /\ PyNum.le (fl 300) (fl 500) = true.
Proof.
  apply (check_closed_interval
           {| range := "250:500"; inside := false;
              start := fl 250; end_ := fl 500 |} (fl 300));
    discriminate.
Defined.
